(** * Vregfile: the Verilated register-file model and its evaluation engine

    A shallow embedding of the generated C++ under [obj_dir/]:
    the design state [Vregfile___024root], the sequential (NBA) and settle
    logic blocks, the per-region phases and the bounded convergence loops of
    [Vregfile___024root___eval] and [Vregfile___024root___eval_settle], and
    the top-level [Vregfile::eval_step].

    Integers are [Z] with the C++ wrap-around written out ([CData], [IData]
    and [QData] are the 8-, 32- and 64-bit unsigned types of the Verilator
    runtime).  Code that mutates [*vlSelf] is written in a small
    state-and-log monad whose failure case is the fatal abort of
    [VL_FATAL_MT]. *)

From Stdlib Require Import ZArith List String Bool Lia.
From Stdlib Require Import Ascii DecimalString.
Import ListNotations.
Local Open Scope Z_scope.

(** ** Sized integers *)

Definition CData (x : Z) : Z := x mod 2 ^ 8.
Definition IData (x : Z) : Z := x mod 2 ^ 32.
Definition QData (x : Z) : Z := x mod 2 ^ 64.

(** ** Trigger vectors

    [VlTriggerVec<N>] belongs to the Verilator runtime: [N] flags packed in
    64-bit words.  The sources use [word(0)], [any()], [andNot], [thisOr] and
    [clear()]; [N] is 1 or 2, so a vector is one word.  It is modelled as the
    [N]-tuple of its flags, flag 0 first, and [word] packs them again. *)

Fixpoint VlTriggerVec (n : nat) : Type :=
  match n with
  | O => unit
  | S k => (bool * VlTriggerVec k)%type
  end.

Module TriggerVec.

Fixpoint clear (n : nat) : VlTriggerVec n :=
  match n with
  | O => tt
  | S k => (false, clear k)
  end.

Fixpoint any {n : nat} : VlTriggerVec n -> bool :=
  match n with
  | O => fun _ => false
  | S k => fun v => fst v || any (snd v)
  end.

Fixpoint word0 {n : nat} : VlTriggerVec n -> Z :=
  match n with
  | O => fun _ => 0
  | S k => fun v => Z.b2z (fst v) + 2 * word0 (snd v)
  end.

(** [word(index)]: only word 0 exists for the vectors of this design. *)
Definition word {n : nat} (v : VlTriggerVec n) (index : Z) : Z :=
  if index =? 0 then word0 v else 0.

Fixpoint thisOr {n : nat} : VlTriggerVec n -> VlTriggerVec n -> VlTriggerVec n :=
  match n with
  | O => fun _ _ => tt
  | S k => fun v other => (fst v || fst other, thisOr (snd v) (snd other))
  end.

Fixpoint andNot {n : nat} : VlTriggerVec n -> VlTriggerVec n -> VlTriggerVec n :=
  match n with
  | O => fun _ _ => tt
  | S k => fun a b => (fst a && negb (fst b), andNot (snd a) (snd b))
  end.

Fixpoint setBit {n : nat} (index : nat) (value : bool)
  : VlTriggerVec n -> VlTriggerVec n :=
  match n with
  | O => fun v => v
  | S k => fun v =>
      match index with
      | O => (value, snd v)
      | S i => (fst v, setBit i value (snd v))
      end
  end.

End TriggerVec.

(** ** Design state: [class Vregfile___024root] *)

Record Vregfile___024root : Type := mkRoot {
  clock : Z;                                   (* VL_IN8(clock,0,0) *)
  reset : Z;                                   (* VL_IN8(reset,0,0) *)
  __VstlFirstIteration : Z;                    (* CData *)
  __Vtrigprevexpr___TOP__clock__0 : Z;         (* CData *)
  __Vtrigprevexpr___TOP__reset__0 : Z;         (* CData *)
  __VactContinue : Z;                          (* CData *)
  val : Z;                                     (* VL_OUT(val,31,0) *)
  __VactIterCount : Z;                         (* IData *)
  regfile__DOT__regs : Z;                      (* QData 63:0 *)
  __VstlTriggered : VlTriggerVec 1;
  __VactTriggered : VlTriggerVec 2;
  __VnbaTriggered : VlTriggerVec 2
}.

(** Field assignments, one per member that the code writes. *)

Definition set_clock (v : Z) (s : Vregfile___024root) : Vregfile___024root :=
  mkRoot v (reset s) (__VstlFirstIteration s) (__Vtrigprevexpr___TOP__clock__0 s)
    (__Vtrigprevexpr___TOP__reset__0 s) (__VactContinue s) (val s) (__VactIterCount s)
    (regfile__DOT__regs s) (__VstlTriggered s) (__VactTriggered s) (__VnbaTriggered s).

Definition set_reset (v : Z) (s : Vregfile___024root) : Vregfile___024root :=
  mkRoot (clock s) v (__VstlFirstIteration s) (__Vtrigprevexpr___TOP__clock__0 s)
    (__Vtrigprevexpr___TOP__reset__0 s) (__VactContinue s) (val s) (__VactIterCount s)
    (regfile__DOT__regs s) (__VstlTriggered s) (__VactTriggered s) (__VnbaTriggered s).

Definition set___VstlFirstIteration (v : Z) (s : Vregfile___024root) : Vregfile___024root :=
  mkRoot (clock s) (reset s) v (__Vtrigprevexpr___TOP__clock__0 s)
    (__Vtrigprevexpr___TOP__reset__0 s) (__VactContinue s) (val s) (__VactIterCount s)
    (regfile__DOT__regs s) (__VstlTriggered s) (__VactTriggered s) (__VnbaTriggered s).

Definition set___Vtrigprevexpr___TOP__clock__0 (v : Z) (s : Vregfile___024root)
  : Vregfile___024root :=
  mkRoot (clock s) (reset s) (__VstlFirstIteration s) v
    (__Vtrigprevexpr___TOP__reset__0 s) (__VactContinue s) (val s) (__VactIterCount s)
    (regfile__DOT__regs s) (__VstlTriggered s) (__VactTriggered s) (__VnbaTriggered s).

Definition set___Vtrigprevexpr___TOP__reset__0 (v : Z) (s : Vregfile___024root)
  : Vregfile___024root :=
  mkRoot (clock s) (reset s) (__VstlFirstIteration s) (__Vtrigprevexpr___TOP__clock__0 s)
    v (__VactContinue s) (val s) (__VactIterCount s)
    (regfile__DOT__regs s) (__VstlTriggered s) (__VactTriggered s) (__VnbaTriggered s).

Definition set___VactContinue (v : Z) (s : Vregfile___024root) : Vregfile___024root :=
  mkRoot (clock s) (reset s) (__VstlFirstIteration s) (__Vtrigprevexpr___TOP__clock__0 s)
    (__Vtrigprevexpr___TOP__reset__0 s) v (val s) (__VactIterCount s)
    (regfile__DOT__regs s) (__VstlTriggered s) (__VactTriggered s) (__VnbaTriggered s).

Definition set_val (v : Z) (s : Vregfile___024root) : Vregfile___024root :=
  mkRoot (clock s) (reset s) (__VstlFirstIteration s) (__Vtrigprevexpr___TOP__clock__0 s)
    (__Vtrigprevexpr___TOP__reset__0 s) (__VactContinue s) v (__VactIterCount s)
    (regfile__DOT__regs s) (__VstlTriggered s) (__VactTriggered s) (__VnbaTriggered s).

Definition set___VactIterCount (v : Z) (s : Vregfile___024root) : Vregfile___024root :=
  mkRoot (clock s) (reset s) (__VstlFirstIteration s) (__Vtrigprevexpr___TOP__clock__0 s)
    (__Vtrigprevexpr___TOP__reset__0 s) (__VactContinue s) (val s) v
    (regfile__DOT__regs s) (__VstlTriggered s) (__VactTriggered s) (__VnbaTriggered s).

Definition set_regfile__DOT__regs (v : Z) (s : Vregfile___024root) : Vregfile___024root :=
  mkRoot (clock s) (reset s) (__VstlFirstIteration s) (__Vtrigprevexpr___TOP__clock__0 s)
    (__Vtrigprevexpr___TOP__reset__0 s) (__VactContinue s) (val s) (__VactIterCount s)
    v (__VstlTriggered s) (__VactTriggered s) (__VnbaTriggered s).

Definition set___VstlTriggered (v : VlTriggerVec 1) (s : Vregfile___024root)
  : Vregfile___024root :=
  mkRoot (clock s) (reset s) (__VstlFirstIteration s) (__Vtrigprevexpr___TOP__clock__0 s)
    (__Vtrigprevexpr___TOP__reset__0 s) (__VactContinue s) (val s) (__VactIterCount s)
    (regfile__DOT__regs s) v (__VactTriggered s) (__VnbaTriggered s).

Definition set___VactTriggered (v : VlTriggerVec 2) (s : Vregfile___024root)
  : Vregfile___024root :=
  mkRoot (clock s) (reset s) (__VstlFirstIteration s) (__Vtrigprevexpr___TOP__clock__0 s)
    (__Vtrigprevexpr___TOP__reset__0 s) (__VactContinue s) (val s) (__VactIterCount s)
    (regfile__DOT__regs s) (__VstlTriggered s) v (__VnbaTriggered s).

Definition set___VnbaTriggered (v : VlTriggerVec 2) (s : Vregfile___024root)
  : Vregfile___024root :=
  mkRoot (clock s) (reset s) (__VstlFirstIteration s) (__Vtrigprevexpr___TOP__clock__0 s)
    (__Vtrigprevexpr___TOP__reset__0 s) (__VactContinue s) (val s) (__VactIterCount s)
    (regfile__DOT__regs s) (__VstlTriggered s) (__VactTriggered s) v.

(** ** Symbol table: [class Vregfile__Syms] *)

Record Vregfile__Syms : Type := mkSyms {
  __Vm_didInit : bool;
  TOP : Vregfile___024root
}.

(** ** Observable events and outcomes

    The log records which logic block was entered, every read and every
    write of the internal register, and every write of the output. *)

Inductive Block : Type :=
  | stl_sequent__TOP__0
  | nba_sequent__TOP__0.

Inductive Event : Type :=
  | Enter (b : Block)
  | RdRegs (v : Z)
  | WrRegs (v : Z)
  | WrVal (v : Z).

(** The four arguments of [VL_FATAL_MT(file, line, hier, msg)]. *)
Record Diagnostic : Type := mkDiag {
  d_file : string;
  d_line : Z;
  d_hier : string;
  d_msg : string
}.

Inductive Result (St A : Type) : Type :=
  | Done (a : A) (s : St) (tr : list Event)
  | Fatal (d : Diagnostic) (tr : list Event)
  | OutOfFuel.
Arguments Done {St A} a s tr.
Arguments Fatal {St A} d tr.
Arguments OutOfFuel {St A}.

Definition M (St A : Type) : Type := St -> Result St A.

Definition ret {St A} (a : A) : M St A := fun s => Done a s [].

(** Put the events [t] in front of the log of an outcome. *)
Definition prefix_trace {St A} (t : list Event) (r : Result St A) : Result St A :=
  match r with
  | Done a s t2 => Done a s (t ++ t2)
  | Fatal d t2 => Fatal d (t ++ t2)
  | OutOfFuel => OutOfFuel
  end.

Definition bind {St A B} (m : M St A) (k : A -> M St B) : M St B :=
  fun s =>
    match m s with
    | Done a s1 t1 => prefix_trace t1 (k a s1)
    | Fatal d t1 => Fatal d t1
    | OutOfFuel => OutOfFuel
    end.

Notation "x <- m ;; k" := (bind m (fun x => k))
  (at level 61, m at next level, right associativity).
Notation "m ;; k" := (bind m (fun _ => k))
  (at level 61, right associativity).

Definition get {St A} (f : St -> A) : M St A := fun s => Done (f s) s [].
Definition modify {St} (f : St -> St) : M St unit := fun s => Done tt (f s) [].
Definition log {St} (e : Event) : M St unit := fun s => Done tt s [e].
Definition out_of_fuel {St A} : M St A := fun _ => OutOfFuel.

(** Modelled from the spec: [VL_FATAL_MT] is a macro of the Verilator runtime
    header [verilated.h], which is not among the sources.  Section 7 of the
    specification makes non-convergence fatal to the run and not retried, so
    the call ends the computation with its four arguments as the diagnostic. *)
Definition VL_FATAL_MT {St} (file : string) (line : Z) (hier msg : string) : M St unit :=
  fun _ => Fatal (mkDiag file line hier msg) [].

(** C truth value of an integer. *)
Definition truthy (x : Z) : bool := negb (x =? 0).

(** Accesses to the internal register and the output go through the log. *)
Definition read_regs : M Vregfile___024root Z :=
  fun s => Done (regfile__DOT__regs s) s [RdRegs (regfile__DOT__regs s)].
Definition write_regs (v : Z) : M Vregfile___024root unit :=
  fun s => Done tt (set_regfile__DOT__regs v s) [WrRegs v].
Definition write_val (v : Z) : M Vregfile___024root unit :=
  fun s => Done tt (set_val v s) [WrVal v].

(** Run a computation on [vlSymsp->TOP]. *)
Definition on_TOP {A} (m : M Vregfile___024root A) : M Vregfile__Syms A :=
  fun y =>
    match m (TOP y) with
    | Done a s tr => Done a (mkSyms (__Vm_didInit y) s) tr
    | Fatal d tr => Fatal d tr
    | OutOfFuel => OutOfFuel
    end.

(** ** The logic blocks (DepSet_h357c9822__0.cpp and its __Slow twin) *)

(** [Vregfile___024root___eval_static]: snapshot the edge sources. *)
Definition Vregfile___024root___eval_static : M Vregfile___024root unit :=
  c <- get clock ;;
  modify (set___Vtrigprevexpr___TOP__clock__0 c) ;;
  r <- get reset ;;
  modify (set___Vtrigprevexpr___TOP__reset__0 r).

Definition Vregfile___024root___eval_initial : M Vregfile___024root unit := ret tt.
Definition Vregfile___024root___eval_final : M Vregfile___024root unit := ret tt.
Definition Vregfile___024root___eval_act : M Vregfile___024root unit := ret tt.

(** The output expression as written in [stl_sequent__TOP__0]:
    [(0xe & ((IData)(regs >> 0x11) << 1)) | (1 & (IData)(regs))],
    the left shift being a 32-bit one. *)
Definition stl_val (regs_hi regs_lo : Z) : Z :=
  Z.lor (Z.land 0x0000000e (IData (Z.shiftl (IData (Z.shiftr regs_hi 0x00000011)) 1)))
        (Z.land 1 (IData regs_lo)).

(** The output expression as written at the end of [nba_sequent__TOP__0]. *)
Definition nba_val (regs_hi regs_lo : Z) : Z :=
  Z.lor (Z.land 0x0000000e (IData (Z.shiftl (IData (Z.shiftr regs_hi 0x00000011)) 1)))
        (Z.land 1 (IData regs_lo)).

Definition Vregfile___024root___stl_sequent__TOP__0 : M Vregfile___024root unit :=
  log (Enter stl_sequent__TOP__0) ;;
  r_hi <- read_regs ;;
  r_lo <- read_regs ;;
  write_val (stl_val r_hi r_lo).

(** The two field updates of the [else] branch, each a function of the
    delayed copy [__Vdly__regfile__DOT__regs] and of the value just read from
    [vlSelfRef.regfile__DOT__regs]. *)
Definition nba_update_low (dly regs : Z) : Z :=
  Z.lor (Z.land 0xffffffff00000000 dly)
        (IData (IData (IData (IData 1 + IData regs)))).

Definition nba_update_field (dly regs : Z) : Z :=
  Z.lor (Z.land 0xffffffff0000ffff dly)
        (QData (Z.shiftl
                  (QData (IData (Z.land 0x0000ffff
                                   (IData (IData 1 + IData (Z.shiftr regs 0x00000010))))))
                  0x00000010)).

Definition Vregfile___024root___nba_sequent__TOP__0 : M Vregfile___024root unit :=
  log (Enter nba_sequent__TOP__0) ;;
  let __Vdly__regfile__DOT__regs := 0 in
  __Vdly__regfile__DOT__regs <- read_regs ;;
  rst <- get reset ;;
  __Vdly__regfile__DOT__regs <-
    (if truthy rst then
       ret 0
     else
       r1 <- read_regs ;;
       let __Vdly__regfile__DOT__regs := nba_update_low __Vdly__regfile__DOT__regs r1 in
       r2 <- read_regs ;;
       let __Vdly__regfile__DOT__regs := nba_update_field __Vdly__regfile__DOT__regs r2 in
       ret __Vdly__regfile__DOT__regs) ;;
  write_regs __Vdly__regfile__DOT__regs ;;
  r_hi <- read_regs ;;
  r_lo <- read_regs ;;
  write_val (nba_val r_hi r_lo).

Definition Vregfile___024root___eval_stl : M Vregfile___024root unit :=
  w <- get (fun s => TriggerVec.word (__VstlTriggered s) 0) ;;
  if truthy (Z.land 1 w) then Vregfile___024root___stl_sequent__TOP__0 else ret tt.

Definition Vregfile___024root___eval_nba : M Vregfile___024root unit :=
  w <- get (fun s => TriggerVec.word (__VnbaTriggered s) 0) ;;
  if truthy (Z.land 3 w) then Vregfile___024root___nba_sequent__TOP__0 else ret tt.

(** ** Trigger evaluation *)

(** Modelled from the spec: a rising edge is a 0-to-1 transition of the
    current value against the previously snapshotted one (section 4.2). *)
Definition rising (cur prev : Z) : bool := (prev =? 0) && (cur =? 1).

(** Modelled from the spec: [Vregfile___024root___eval_triggers__act] is
    declared and called in DepSet_h357c9822__0.cpp but defined in a file that
    is not among the sources.  Sections 4.1 and 4.2: one flag per watched
    edge, computed from the current value and the previous snapshot, after
    which the current clock and reset values are recorded as previous, so
    that the same edge is not detected twice.  The flag indices are those of
    [dump_triggers__act]: 0 is [@(posedge clock)], 1 is [@(posedge reset)]. *)
Definition Vregfile___024root___eval_triggers__act : M Vregfile___024root unit :=
  modify (fun s => set___VactTriggered
                     (TriggerVec.setBit 0
                        (rising (clock s) (__Vtrigprevexpr___TOP__clock__0 s))
                        (__VactTriggered s)) s) ;;
  modify (fun s => set___VactTriggered
                     (TriggerVec.setBit 1
                        (rising (reset s) (__Vtrigprevexpr___TOP__reset__0 s))
                        (__VactTriggered s)) s) ;;
  modify (fun s => set___Vtrigprevexpr___TOP__clock__0 (clock s) s) ;;
  modify (fun s => set___Vtrigprevexpr___TOP__reset__0 (reset s) s).

(** Modelled from the spec: [Vregfile___024root___eval_triggers__stl] is
    declared and called in DepSet_h357c9822__0__Slow.cpp but not defined in
    the sources.  Section 4.2 gives the settle phase a first-iteration-only
    trigger; [dump_triggers__stl] names it as flag 0. *)
Definition Vregfile___024root___eval_triggers__stl : M Vregfile___024root unit :=
  modify (fun s => set___VstlTriggered
                     (TriggerVec.setBit 0 (truthy (__VstlFirstIteration s))
                        (__VstlTriggered s)) s).

(** ** Region phases *)

Definition Vregfile___024root___eval_phase__stl : M Vregfile___024root bool :=
  Vregfile___024root___eval_triggers__stl ;;
  __VstlExecute <- get (fun s => TriggerVec.any (__VstlTriggered s)) ;;
  (if __VstlExecute : bool then Vregfile___024root___eval_stl else ret tt) ;;
  ret __VstlExecute.

Definition Vregfile___024root___eval_phase__act : M Vregfile___024root bool :=
  Vregfile___024root___eval_triggers__act ;;
  __VactExecute <- get (fun s => TriggerVec.any (__VactTriggered s)) ;;
  (if __VactExecute : bool then
     __VpreTriggered <- get (fun s => TriggerVec.andNot (__VactTriggered s)
                                                        (__VnbaTriggered s)) ;;
     modify (fun s => set___VnbaTriggered
                        (TriggerVec.thisOr (__VnbaTriggered s) (__VactTriggered s)) s) ;;
     Vregfile___024root___eval_act
   else ret tt) ;;
  ret __VactExecute.

Definition Vregfile___024root___eval_phase__nba : M Vregfile___024root bool :=
  __VnbaExecute <- get (fun s => TriggerVec.any (__VnbaTriggered s)) ;;
  (if __VnbaExecute : bool then
     Vregfile___024root___eval_nba ;;
     modify (set___VnbaTriggered (TriggerVec.clear 2))
   else ret tt) ;;
  ret __VnbaExecute.

(** ** Convergence loops

    Each [while] loop is a recursion on fuel.  A loop body runs at most 102
    times: the counter starts at 0, goes up by one per iteration, and the
    iteration that finds it above [0x64] aborts.  [converge_fuel] is that
    bound.  The phases are parameters of the loops so that the scheduler can
    be run with other logic than this design's. *)

Definition converge_fuel : nat := 102.

Section Scheduler.

Variable phase__stl phase__act phase__nba : M Vregfile___024root bool.

Fixpoint stl_loop (fuel : nat) (__VstlIterCount __VstlContinue : Z)
  : M Vregfile___024root unit :=
  if truthy __VstlContinue then
    match fuel with
    | O => out_of_fuel
    | S fuel' =>
        (if 0x00000064 <? __VstlIterCount then
           VL_FATAL_MT "regfile.sv" 16 "" "Settle region did not converge."
         else ret tt) ;;
        let __VstlIterCount := IData (IData 1 + __VstlIterCount) in
        let __VstlContinue := 0 in
        b <- phase__stl ;;
        let __VstlContinue := if b : bool then 1 else __VstlContinue in
        modify (set___VstlFirstIteration 0) ;;
        stl_loop fuel' __VstlIterCount __VstlContinue
    end
  else ret tt.

Definition eval_settle_with : M Vregfile___024root unit :=
  let __VstlIterCount := 0 in
  modify (set___VstlFirstIteration 1) ;;
  let __VstlContinue := 1 in
  stl_loop converge_fuel __VstlIterCount __VstlContinue.

Fixpoint act_loop (fuel : nat) : M Vregfile___024root unit :=
  c <- get __VactContinue ;;
  if truthy c then
    match fuel with
    | O => out_of_fuel
    | S fuel' =>
        n <- get __VactIterCount ;;
        (if 0x00000064 <? n then
           VL_FATAL_MT "regfile.sv" 16 "" "Active region did not converge."
         else ret tt) ;;
        modify (fun s => set___VactIterCount (IData (IData 1 + __VactIterCount s)) s) ;;
        modify (set___VactContinue 0) ;;
        b <- phase__act ;;
        (if b : bool then modify (set___VactContinue 1) else ret tt) ;;
        act_loop fuel'
    end
  else ret tt.

Fixpoint nba_loop (fuel : nat) (__VnbaIterCount __VnbaContinue : Z)
  : M Vregfile___024root unit :=
  if truthy __VnbaContinue then
    match fuel with
    | O => out_of_fuel
    | S fuel' =>
        (if 0x00000064 <? __VnbaIterCount then
           VL_FATAL_MT "regfile.sv" 16 "" "NBA region did not converge."
         else ret tt) ;;
        let __VnbaIterCount := IData (IData 1 + __VnbaIterCount) in
        let __VnbaContinue := 0 in
        modify (set___VactIterCount 0) ;;
        modify (set___VactContinue 1) ;;
        act_loop converge_fuel ;;
        b <- phase__nba ;;
        let __VnbaContinue := if b : bool then 1 else __VnbaContinue in
        nba_loop fuel' __VnbaIterCount __VnbaContinue
    end
  else ret tt.

Definition eval_with : M Vregfile___024root unit :=
  let __VnbaIterCount := 0 in
  let __VnbaContinue := 1 in
  nba_loop converge_fuel __VnbaIterCount __VnbaContinue.

End Scheduler.

Definition Vregfile___024root___eval_settle : M Vregfile___024root unit :=
  eval_settle_with Vregfile___024root___eval_phase__stl.

Definition Vregfile___024root___eval : M Vregfile___024root unit :=
  eval_with Vregfile___024root___eval_phase__act Vregfile___024root___eval_phase__nba.

(** ** [Vregfile::eval_step] (Vregfile.cpp)

    [__Vm_deleter.deleteAll()] and [Verilated::endOfEval] are runtime
    housekeeping that touches no member of the design state. *)
Definition Vregfile__eval_step : M Vregfile__Syms unit :=
  d <- get __Vm_didInit ;;
  (if negb d then
     modify (fun y => mkSyms true (TOP y)) ;;
     on_TOP Vregfile___024root___eval_static ;;
     on_TOP Vregfile___024root___eval_initial ;;
     on_TOP Vregfile___024root___eval_settle
   else ret tt) ;;
  on_TOP Vregfile___024root___eval.

(** ** Construction: [Vregfile___024root___ctor_var_reset]

    [VL_SCOPED_RAND_RESET_I(width, scopeHash, salt)] is a runtime macro giving
    a [width]-bit value that depends on the run's reset policy; the function
    [rnd] stands for it.  The trigger vectors are cleared by their own
    constructors.  The members the function does not assign keep what the
    storage [s] held. *)
Definition VL_SCOPED_RAND_RESET_I (rnd : Z -> Z -> Z) (width scopeHash salt : Z) : Z :=
  rnd scopeHash salt mod 2 ^ width.

Definition Vregfile___024root___ctor_var_reset (rnd : Z -> Z -> Z) (__VscopeHash : Z)
  : M Vregfile___024root unit :=
  modify (set_clock (VL_SCOPED_RAND_RESET_I rnd 1 __VscopeHash 5452235342940299466)) ;;
  modify (set_reset (VL_SCOPED_RAND_RESET_I rnd 1 __VscopeHash 9928399931838511862)) ;;
  modify (set_val (VL_SCOPED_RAND_RESET_I rnd 32 __VscopeHash 14157650751545541461)) ;;
  modify (set_regfile__DOT__regs 0) ;;
  modify (set___Vtrigprevexpr___TOP__clock__0
            (VL_SCOPED_RAND_RESET_I rnd 1 __VscopeHash 13272892335938733197)) ;;
  modify (set___Vtrigprevexpr___TOP__reset__0
            (VL_SCOPED_RAND_RESET_I rnd 1 __VscopeHash 1487628987237401141)).

(** ** The fields of the internal register, as the updates address them

    The first update keeps [0xffffffff00000000 & dly] and writes an [IData]:
    the low field is bits 31:0.  The second keeps [0xffffffff0000ffff & dly]
    and writes 16 bits shifted left by [0x10]: the 16-bit field is bits
    31:16. *)

Definition low_field (r : Z) : Z := IData r.
Definition field16 (r : Z) : Z := Z.land 0x0000ffff (Z.shiftr r 0x00000010).

(** The 16 bits that follow the low 32: bits 47:32. *)
Definition next16 (r : Z) : Z := Z.land 0x0000ffff (Z.shiftr r 32).

(** Next register value of the sequential block, from the value at entry. *)
Definition nba_next (rst r : Z) : Z :=
  if truthy rst then 0 else nba_update_field (nba_update_low r r) r.

(** ** Outcomes

    The state and the log that each block, phase and loop of this design
    leaves, written as functions of the state at entry.  The lemmas of the
    second part prove that the code computes them. *)

(** The log of the sequential block entered with reset [rst] and register
    [r]: the reads of the register, its single write, and the reads and the
    write of the output assignment. *)
Definition nba_trace (rst r : Z) : list Event :=
  Enter nba_sequent__TOP__0 :: RdRegs r ::
  (if truthy rst then [] else [RdRegs r; RdRegs r]) ++
  [WrRegs (nba_next rst r);
   RdRegs (nba_next rst r); RdRegs (nba_next rst r);
   WrVal (nba_val (nba_next rst r) (nba_next rst r))].

(** The state after the sequential block: register and output written. *)
Definition nba_post (s : Vregfile___024root) : Vregfile___024root :=
  set_val (nba_val (nba_next (reset s) (regfile__DOT__regs s))
                   (nba_next (reset s) (regfile__DOT__regs s)))
    (set_regfile__DOT__regs (nba_next (reset s) (regfile__DOT__regs s)) s).

(** The log of the settle block entered with register [r]. *)
Definition stl_trace (r : Z) : list Event :=
  [Enter stl_sequent__TOP__0; RdRegs r; RdRegs r; WrVal (stl_val r r)].

(** The diagnostics of the three [VL_FATAL_MT] calls. *)
Definition diag_stl : Diagnostic :=
  mkDiag "regfile.sv" 16 "" "Settle region did not converge.".
Definition diag_act : Diagnostic :=
  mkDiag "regfile.sv" 16 "" "Active region did not converge.".
Definition diag_nba : Diagnostic :=
  mkDiag "regfile.sv" 16 "" "NBA region did not converge.".

(** The edges seen by the trigger evaluation in state [s]. *)
Definition edges (s : Vregfile___024root) : VlTriggerVec 2 :=
  (rising (clock s) (__Vtrigprevexpr___TOP__clock__0 s),
   (rising (reset s) (__Vtrigprevexpr___TOP__reset__0 s), tt)).

(** The state after [eval_phase__act]: flags set from the edges, snapshots
    taken, flags merged into [__VnbaTriggered]. *)
Definition act_post (s : Vregfile___024root) : Vregfile___024root :=
  mkRoot (clock s) (reset s) (__VstlFirstIteration s) (clock s) (reset s)
    (__VactContinue s) (val s) (__VactIterCount s) (regfile__DOT__regs s)
    (__VstlTriggered s) (edges s)
    (TriggerVec.thisOr (__VnbaTriggered s) (edges s)).

(** The state after the active loop: one turn without edges, two with. *)
Definition act_done (s : Vregfile___024root) : Vregfile___024root :=
  mkRoot (clock s) (reset s) (__VstlFirstIteration s) (clock s) (reset s)
    0 (val s) (if TriggerVec.any (edges s) then 2 else 1) (regfile__DOT__regs s)
    (__VstlTriggered s) (TriggerVec.clear 2)
    (TriggerVec.thisOr (__VnbaTriggered s) (edges s)).

(** Whether the sequential block runs during [eval]: some trigger is pending
    in [__VnbaTriggered], or some edge is seen. *)
Definition fires (s : Vregfile___024root) : bool :=
  TriggerVec.any (TriggerVec.thisOr (__VnbaTriggered s) (edges s)).

(** The scheduler's own bookkeeping at the end of [eval]. *)
Definition eval_base (s : Vregfile___024root) : Vregfile___024root :=
  mkRoot (clock s) (reset s) (__VstlFirstIteration s) (clock s) (reset s)
    0 (val s) 1 (regfile__DOT__regs s) (__VstlTriggered s)
    (TriggerVec.clear 2) (TriggerVec.clear 2).

(** The state and the log after [eval]. *)
Definition eval_post (s : Vregfile___024root) : Vregfile___024root :=
  if fires s then nba_post (eval_base s) else eval_base s.

Definition eval_trace (s : Vregfile___024root) : list Event :=
  if fires s then nba_trace (reset s) (regfile__DOT__regs s) else [].

(** The state after the settle phase. *)
Definition settle_post (s : Vregfile___024root) : Vregfile___024root :=
  mkRoot (clock s) (reset s) 0 (__Vtrigprevexpr___TOP__clock__0 s)
    (__Vtrigprevexpr___TOP__reset__0 s) (__VactContinue s)
    (stl_val (regfile__DOT__regs s) (regfile__DOT__regs s)) (__VactIterCount s)
    (regfile__DOT__regs s) (TriggerVec.clear 1) (__VactTriggered s)
    (__VnbaTriggered s).

(** The state after [eval_static]. *)
Definition static_post (s : Vregfile___024root) : Vregfile___024root :=
  set___Vtrigprevexpr___TOP__reset__0 (reset s)
    (set___Vtrigprevexpr___TOP__clock__0 (clock s) s).

(** The design state on which [eval] runs inside [eval_step]: after the
    one-time static, initial and settle steps when the model is not yet
    initialised, unchanged otherwise. *)
Definition step_init (y : Vregfile__Syms) : Vregfile___024root :=
  if __Vm_didInit y then TOP y else settle_post (static_post (TOP y)).

(** The symbol table and the log after [eval_step]. *)
Definition step_post (y : Vregfile__Syms) : Vregfile__Syms :=
  mkSyms true (eval_post (step_init y)).

Definition step_trace (y : Vregfile__Syms) : list Event :=
  (if __Vm_didInit y then [] else stl_trace (regfile__DOT__regs (TOP y))) ++
  eval_trace (step_init y).

(** ** Statements and example states

    Reset asserted, clock rising, an arbitrary register. *)
Definition reset_edge_state : Vregfile___024root :=
  mkRoot 1 1 0 0 1 0 0xdeadbeef 1 0xfedcba9876543210
    (TriggerVec.clear 1) (TriggerVec.clear 2) (TriggerVec.clear 2).

(** Reset low, clock rising, low field [0xFFFFFFFF]. *)
Definition wrap_edge_state : Vregfile___024root :=
  mkRoot 1 0 0 0 0 0 0xf 1 0x0000abcdffffffff
    (TriggerVec.clear 1) (TriggerVec.clear 2) (TriggerVec.clear 2).

(** C3, as the specification states it: from a low field of [0xFFFFFFFF],
    with reset low, a clock edge leaves the low field at 0 and the 16-bit
    field at its previous value plus one modulo [0x10000]; the 16-bit field
    is the 16 bits that follow the low 32 (bits 47:32), as section 4.5 of
    the specification describes the register. *)
Definition increment_as_specified : Prop :=
  forall s s' tr,
    reset s = 0 ->
    __Vtrigprevexpr___TOP__clock__0 s = 0 ->
    clock s = 1 ->
    low_field (regfile__DOT__regs s) = 0xFFFFFFFF ->
    Vregfile___024root___eval s = Done tt s' tr ->
    low_field (regfile__DOT__regs s') = 0x00000000 /\
    next16 (regfile__DOT__regs s') =
    (next16 (regfile__DOT__regs s) + 1) mod 0x10000.

(** Reset low, clock rising, bits 15:0 one short of a carry. *)
Definition carry_edge_state : Vregfile___024root :=
  mkRoot 1 0 0 0 0 0 0xe 1 0x0000abcd0001fffe
    (TriggerVec.clear 1) (TriggerVec.clear 2) (TriggerVec.clear 2).

(** C6, as the specification states it: the reset update clears the low 32
    bits and the next 16 bits and leaves bits 48 to 63 as they were. *)
Definition reset_keeps_bits_48_63 : Prop :=
  forall s s' tr,
    reset s <> 0 ->
    Vregfile___024root___nba_sequent__TOP__0 s = Done tt s' tr ->
    forall n, 48 <= n <= 63 ->
      Z.testbit (regfile__DOT__regs s') n = Z.testbit (regfile__DOT__regs s) n.

(** Reset asserted, bit 48 of the register set. *)
Definition bit48_state : Vregfile___024root :=
  mkRoot 1 1 0 0 1 0 0 1 0x0001000000000000
    (TriggerVec.clear 1) (TriggerVec.clear 2) (TriggerVec.clear 2).

(** The register writes in a log. *)
Fixpoint writes_of (tr : list Event) : list Z :=
  match tr with
  | [] => []
  | WrRegs v :: tr' => v :: writes_of tr'
  | _ :: tr' => writes_of tr'
  end.

(** C2, as the specification words the composition: bit 0 is the low bit of
    the low field, bits 1 to 3 are the low three bits of the 16-bit field
    shifted up by one, the rest is 0.  [val_as_specified] takes the 16-bit
    field where the updates put it (bits 31:16); [val_as_specified_next16]
    takes it as the 16 bits that follow the low 32 (bits 47:32), as section
    4.5 of the specification describes the register. *)
Definition val_as_specified (r : Z) : Z :=
  Z.lor (Z.land 1 (low_field r)) (Z.shiftl (Z.land 7 (field16 r)) 1).

Definition val_as_specified_next16 (r : Z) : Z :=
  Z.lor (Z.land 1 (low_field r)) (Z.shiftl (Z.land 7 (next16 r)) 1).

(** The state reached from a zeroed register by one clock edge without
    reset, the clock being low again and about to rise. *)
Definition second_edge_state : Vregfile___024root :=
  mkRoot 1 0 0 0 0 0 1 1 0x00010001
    (TriggerVec.clear 1) (TriggerVec.clear 2) (TriggerVec.clear 2).

(** The composition the code computes: bit 0 is the low bit of the low
    field, bits 1 to 3 are bits 1 to 3 of the 16-bit field, kept in place. *)
Definition out_composition (r : Z) : Z :=
  Z.lor (Z.land 1 (low_field r)) (Z.land 0x0000000e (field16 r)).

(** ** Reachable states

    A model instance is constructed over some storage, then driven: the
    driver sets the clock and reset inputs and calls [eval_step]. *)
Inductive reachable : Vregfile__Syms -> Prop :=
  | reach_ctor (rnd : Z -> Z -> Z) (scopeHash : Z) (s0 s : Vregfile___024root) :
      Vregfile___024root___ctor_var_reset rnd scopeHash s0 = Done tt s [] ->
      reachable (mkSyms false s)
  | reach_set_clock (y : Vregfile__Syms) (c : Z) :
      reachable y ->
      reachable (mkSyms (__Vm_didInit y) (set_clock c (TOP y)))
  | reach_set_reset (y : Vregfile__Syms) (r : Z) :
      reachable y ->
      reachable (mkSyms (__Vm_didInit y) (set_reset r (TOP y)))
  | reach_eval_step (y y' : Vregfile__Syms) (tr : list Event) :
      reachable y ->
      Vregfile__eval_step y = Done tt y' tr ->
      reachable y'.

(** No bit from 32 up is set. *)
Definition hi32_zero (r : Z) : Prop := forall n, 32 <= n -> Z.testbit r n = false.

(** A model constructed with all-zero initial values. *)
Definition constructed_state : Vregfile___024root :=
  mkRoot 0 0 0 0 0 0 0 0 0
    (TriggerVec.clear 1) (TriggerVec.clear 2) (TriggerVec.clear 2).

(** That model clocked twice with reset low. *)
Definition twice_clocked : Vregfile__Syms :=
  mkSyms true
    (mkRoot 1 0 0 1 0 0 2 1 0x00020002
       (TriggerVec.clear 1) (TriggerVec.clear 2) (TriggerVec.clear 2)).

(** C8, as the specification states it: whenever a watched signal holds 1
    both in the snapshot and currently, the evaluation does not run the
    sequential block.  Stated for the clock; no trigger is pending. *)
Definition held_clock_never_runs_block : Prop :=
  forall s s' tr,
    __VnbaTriggered s = TriggerVec.clear 2 ->
    __Vtrigprevexpr___TOP__clock__0 s = 1 -> clock s = 1 ->
    Vregfile___024root___eval s = Done tt s' tr ->
    ~ In (Enter nba_sequent__TOP__0) tr.

(** The clock is held at 1 while reset goes from 0 to 1. *)
Definition held_clock_reset_edge : Vregfile___024root :=
  mkRoot 1 1 0 1 0 0 3 1 0x00030003
    (TriggerVec.clear 1) (TriggerVec.clear 2) (TriggerVec.clear 2).

(** Clock and reset both held at 1. *)
Definition held_signals_state : Vregfile___024root :=
  mkRoot 1 1 0 1 1 0 3 1 0x00030003
    (TriggerVec.clear 1) (TriggerVec.clear 2) (TriggerVec.clear 2).

(** ** Non-convergence *)

(** A phase that reports activity every time it runs, and leaves the
    iteration counter of the active loop alone. *)
Definition rigged (phase : M Vregfile___024root bool) : Prop :=
  forall s, exists s' t,
    phase s = Done true s' t /\ __VactIterCount s' = __VactIterCount s.

(** An artificial phase that runs the settle block and always reports
    activity. *)
Definition retrigger : M Vregfile___024root bool :=
  Vregfile___024root___stl_sequent__TOP__0 ;; ret true.

(** An artificial phase that reports activity [val] more times: it counts
    the output member down to 0 and then reports none. *)
Definition countdown : M Vregfile___024root bool :=
  v <- get val ;;
  if 0 <? v then modify (set_val (v - 1)) ;; ret true else ret false.

(** What a diagnostic says. *)
Definition contains (sub s : string) : bool :=
  match String.index 0 sub s with
  | Some _ => true
  | None => false
  end.

(** The decimal numeral of [n]. *)
Definition decimal (n : Z) : string := NilZero.string_of_int (Z.to_int n).

Definition is_digit (c : ascii) : bool :=
  let n := N_of_ascii c in ((48 <=? n) && (n <=? 57))%N.

Fixpoint has_digit (s : string) : bool :=
  match s with
  | EmptyString => false
  | String c s' => is_digit c || has_digit s'
  end.

Definition names_region (d : Diagnostic) (region : string) : bool :=
  contains region (d_msg d).

Definition names_count (d : Diagnostic) (n : Z) : bool :=
  contains (decimal n) (d_msg d) || contains (decimal n) (d_hier d).

(** The number of block entries in a log. *)
Fixpoint entries (tr : list Event) : nat :=
  match tr with
  | [] => O
  | Enter _ :: tr' => S (entries tr')
  | _ :: tr' => entries tr'
  end.

(** * Further code: debug checks, trigger dumps and drivers *)

(** Modelled from the spec: [Verilated::overWidthError] belongs to the
    Verilator runtime.  Section 7 of the specification has a width
    violation reported as a diagnostic identifying the offending signal, and
    every detected error fatal: the call ends the computation with the
    signal name as the message. *)
Definition Verilated__overWidthError {St} (signame : string) : M St unit :=
  fun _ => Fatal (mkDiag "" 0 "" signame) [].

(** [Vregfile___024root___eval_debug_assertions] (VL_DEBUG builds). *)
Definition Vregfile___024root___eval_debug_assertions : M Vregfile___024root unit :=
  c <- get clock ;;
  (if truthy (Z.land c 0xfe) then Verilated__overWidthError "clock" else ret tt) ;;
  r <- get reset ;;
  (if truthy (Z.land r 0xfe) then Verilated__overWidthError "reset" else ret tt).

(** [Vregfile::eval_step] as compiled with VL_DEBUG: the debug assertions
    run first. *)
Definition Vregfile__eval_step_debug : M Vregfile__Syms unit :=
  on_TOP Vregfile___024root___eval_debug_assertions ;;
  Vregfile__eval_step.

(** The trigger dumps (VL_DEBUG builds) only read the state and print: each
    is the list of the lines its [VL_DBG_MSGF] calls print, in order.  The
    entry line under [VL_DEBUG_IF] depends on the runtime debug level and is
    left out.  [(1U & (~ any()))] is the C expression on the promoted
    [bool]. *)
Definition newline : string := String (ascii_of_nat 10) EmptyString.

Definition not_any {n : nat} (v : VlTriggerVec n) : Z :=
  Z.land 1 (Z.lnot (Z.b2z (TriggerVec.any v))).

Definition Vregfile___024root___dump_triggers__stl (s : Vregfile___024root)
  : list string :=
  (if truthy (not_any (__VstlTriggered s)) then
     [("         No triggers active" ++ newline)%string]
   else []) ++
  (if truthy (Z.land 1 (TriggerVec.word (__VstlTriggered s) 0)) then
     [("         'stl' region trigger index 0 is active: Internal 'stl' trigger - first iteration"
       ++ newline)%string]
   else []).

Definition Vregfile___024root___dump_triggers__act (s : Vregfile___024root)
  : list string :=
  (if truthy (not_any (__VactTriggered s)) then
     [("         No triggers active" ++ newline)%string]
   else []) ++
  (if truthy (Z.land 1 (TriggerVec.word (__VactTriggered s) 0)) then
     [("         'act' region trigger index 0 is active: @(posedge clock)"
       ++ newline)%string]
   else []) ++
  (if truthy (Z.land 2 (TriggerVec.word (__VactTriggered s) 0)) then
     [("         'act' region trigger index 1 is active: @(posedge reset)"
       ++ newline)%string]
   else []).

Definition Vregfile___024root___dump_triggers__nba (s : Vregfile___024root)
  : list string :=
  (if truthy (not_any (__VnbaTriggered s)) then
     [("         No triggers active" ++ newline)%string]
   else []) ++
  (if truthy (Z.land 1 (TriggerVec.word (__VnbaTriggered s) 0)) then
     [("         'nba' region trigger index 0 is active: @(posedge clock)"
       ++ newline)%string]
   else []) ++
  (if truthy (Z.land 2 (TriggerVec.word (__VnbaTriggered s) 0)) then
     [("         'nba' region trigger index 1 is active: @(posedge reset)"
       ++ newline)%string]
   else []).

(** The flags of a trigger vector that are set, by index. *)
Fixpoint set_flags {n : nat} (i : nat) : VlTriggerVec n -> list nat :=
  match n with
  | O => fun _ => []
  | S k => fun v => (if fst v then [i] else []) ++ set_flags (S i) (snd v)
  end.

(** The lines of the dumps, by flag index. *)
Definition no_triggers_line : string :=
  ("         No triggers active" ++ newline)%string.

Definition stl_line (i : nat) : string :=
  ("         'stl' region trigger index 0 is active: Internal 'stl' trigger - first iteration"
   ++ newline)%string.

Definition act_line (i : nat) : string :=
  match i with
  | O => ("         'act' region trigger index 0 is active: @(posedge clock)"
          ++ newline)%string
  | _ => ("         'act' region trigger index 1 is active: @(posedge reset)"
          ++ newline)%string
  end.

Definition nba_line (i : nat) : string :=
  match i with
  | O => ("         'nba' region trigger index 0 is active: @(posedge clock)"
          ++ newline)%string
  | _ => ("         'nba' region trigger index 1 is active: @(posedge reset)"
          ++ newline)%string
  end.

(** [Vregfile::eventsPending] and [Vregfile::final] (Vregfile.cpp). *)
Definition Vregfile__eventsPending : M Vregfile__Syms bool := ret false.

Definition Vregfile__final : M Vregfile__Syms unit :=
  on_TOP Vregfile___024root___eval_final.

(** The evaluation loop and the final call of [main] (Vregfile__main.cpp).
    [topp->eval()] is [eval_step].  [gotFinish] is the context flag that a
    [$finish] would set; nothing in this design sets it, so the loop reads
    the value it is given.  [timeInc] advances the simulated time, which is
    not part of the design state.  The [while] is a recursion on fuel. *)
Fixpoint main_loop (fuel : nat) (gotFinish : bool) : M Vregfile__Syms unit :=
  if negb gotFinish then
    match fuel with
    | O => out_of_fuel
    | S fuel' =>
        Vregfile__eval_step ;;
        pending <- Vregfile__eventsPending ;;
        if negb pending then ret tt
        else main_loop fuel' gotFinish
    end
  else ret tt.

Definition main_run (fuel : nat) (gotFinish : bool) : M Vregfile__Syms unit :=
  main_loop fuel gotFinish ;;
  Vregfile__final.

(** A test bench in the way section 6 of the specification describes the
    driver: set an input, evaluate.  One clock cycle drives the clock low
    and high with an evaluation after each change. *)
Definition drive_clock (c : Z) : M Vregfile__Syms unit :=
  modify (fun y => mkSyms (__Vm_didInit y) (set_clock c (TOP y))).

Definition clock_cycle : M Vregfile__Syms unit :=
  drive_clock 0 ;;
  Vregfile__eval_step ;;
  drive_clock 1 ;;
  Vregfile__eval_step.

Fixpoint clock_cycles (n : nat) : M Vregfile__Syms unit :=
  match n with
  | O => ret tt
  | S k => clock_cycles k ;; clock_cycle
  end.

(** The entries of the sequential block in a log. *)
Fixpoint nba_entries (tr : list Event) : nat :=
  match tr with
  | [] => O
  | Enter nba_sequent__TOP__0 :: tr' => S (nba_entries tr')
  | _ :: tr' => nba_entries tr'
  end.

(** A computation that ends, normally or by a fatal abort. *)
Definition ends {St A} (r : Result St A) : Prop := r <> OutOfFuel.

(** ** Further example states

    Clock low and not rising, reset going from 0 to 1. *)
Definition reset_only_edge : Vregfile___024root :=
  mkRoot 0 1 0 0 0 0 5 1 0x00050005
    (TriggerVec.clear 1) (TriggerVec.clear 2) (TriggerVec.clear 2).

(** A fresh model whose clock and reset are both 1 from the start. *)
Definition fresh_high_inputs : Vregfile__Syms :=
  mkSyms false
    (mkRoot 1 1 1 0 0 1 0xffffffff 7 0
       (TriggerVec.clear 1) (TriggerVec.clear 2) (TriggerVec.clear 2)).

(** An initialised model with reset low and a register whose low half is
    about to wrap. *)
Definition near_wrap : Vregfile__Syms :=
  mkSyms true
    (mkRoot 1 0 0 1 0 0 0 1 0x0000123400fdffff
       (TriggerVec.clear 1) (TriggerVec.clear 2) (TriggerVec.clear 2)).

(** A model whose clock was set to 2 by the test bench. *)
Definition overwide_clock : Vregfile__Syms :=
  mkSyms true (set_clock 2 constructed_state).

(** A reset policy that supplies all-ones values, over storage that held
    arbitrary numbers. *)
Definition all_ones (scopeHash salt : Z) : Z := 2 ^ 64 - 1.

(** The storage before construction. *)
Definition dirty_storage : Vregfile___024root :=
  mkRoot 77 88 5 66 55 9 123456789012 44 0xffffffffffffffff
    (TriggerVec.clear 1) (TriggerVec.clear 2) (TriggerVec.clear 2).

(** What [ctor_var_reset] makes of it under that policy. *)
Definition constructed_all_ones : Vregfile___024root :=
  mkRoot 1 1 5 1 1 9 0xffffffff 44 0
    (TriggerVec.clear 1) (TriggerVec.clear 2) (TriggerVec.clear 2).

(** Clock and reset held, flag 0 of the NBA vector left set. *)
Definition pending_flag_state : Vregfile___024root :=
  mkRoot 1 0 0 1 0 0 3 1 0x00030003
    (TriggerVec.clear 1) (TriggerVec.clear 2) (true, (false, tt)).

(** * Properties *)

Arguments truthy !x.
Arguments rising !cur !prev.
Arguments nba_val : simpl never.
Arguments stl_val : simpl never.
Arguments nba_update_low : simpl never.
Arguments nba_update_field : simpl never.

(** ** Bit-level facts about the masks and the sized casts *)

Lemma testbit_mask_hi32 (n : Z) :
  Z.testbit 0xffffffff00000000 n = (32 <=? n) && (n <? 64).
Proof.
  destruct (Z.ltb_spec n 0) as [Hn | Hn].
  - rewrite Z.testbit_neg_r by lia.
    destruct (Z.leb_spec 32 n); [lia | reflexivity].
  - change 0xffffffff00000000 with (Z.shiftl (Z.ones 32) 32).
    rewrite Z.shiftl_spec by lia. rewrite Z.testbit_ones by lia.
    destruct (Z.leb_spec 0 (n - 32)), (Z.leb_spec 32 n),
      (Z.ltb_spec (n - 32) 32), (Z.ltb_spec n 64); try lia; reflexivity.
Qed.

Lemma testbit_mask_ffff (n : Z) :
  Z.testbit 0x0000ffff n = (0 <=? n) && (n <? 16).
Proof. exact (Z.testbit_ones 16 n ltac:(lia)). Qed.

Lemma testbit_mask_field (n : Z) :
  Z.testbit 0xffffffff0000ffff n =
  ((0 <=? n) && (n <? 16)) || ((32 <=? n) && (n <? 64)).
Proof.
  change 0xffffffff0000ffff with (Z.lor 0x0000ffff 0xffffffff00000000).
  rewrite Z.lor_spec, testbit_mask_ffff, testbit_mask_hi32. reflexivity.
Qed.

Lemma testbit_mask_e (n : Z) :
  Z.testbit 0x0000000e n = (1 <=? n) && (n <? 4).
Proof.
  destruct (Z.ltb_spec n 0) as [Hn | Hn].
  - rewrite Z.testbit_neg_r by lia.
    destruct (Z.leb_spec 1 n); [lia | reflexivity].
  - change 0x0000000e with (Z.shiftl (Z.ones 3) 1).
    rewrite Z.shiftl_spec by lia. rewrite Z.testbit_ones by lia.
    destruct (Z.leb_spec 0 (n - 1)), (Z.leb_spec 1 n),
      (Z.ltb_spec (n - 1) 3), (Z.ltb_spec n 4); try lia; reflexivity.
Qed.

Lemma testbit_mask_1 (n : Z) : Z.testbit 1 n = (0 <=? n) && (n <? 1).
Proof. exact (Z.testbit_ones 1 n ltac:(lia)). Qed.

(** Push [Z.testbit] through the operators the generated code uses. *)
Ltac push_testbit :=
  unfold IData, QData;
  repeat first
    [ rewrite Z.lor_spec
    | rewrite Z.land_spec
    | rewrite testbit_mask_hi32
    | rewrite testbit_mask_field
    | rewrite testbit_mask_ffff
    | rewrite testbit_mask_e
    | rewrite testbit_mask_1
    | rewrite Z.testbit_mod_pow2 by lia
    | rewrite Z.shiftr_spec by lia
    | rewrite Z.shiftl_spec by lia ].

(** Decide the comparisons left in a goal about bits. *)
Ltac split_cmp :=
  repeat match goal with
    | |- context [?a <=? ?b] => destruct (Z.leb_spec a b)
    | |- context [?a <? ?b] => destruct (Z.ltb_spec a b)
    | |- context [?a =? ?b] => destruct (Z.eqb_spec a b)
    end;
  try lia; cbn [andb orb negb];
  rewrite ?andb_false_r, ?andb_true_r, ?orb_false_r, ?orb_true_r;
  try reflexivity.

Lemma testbit_add32_low (x n : Z) :
  n < 32 -> Z.testbit (1 mod 2 ^ 32 + x mod 2 ^ 32) n = Z.testbit (x + 1) n.
Proof.
  intros Hn.
  rewrite <- (Z.mod_pow2_bits_low (1 mod 2 ^ 32 + x mod 2 ^ 32) 32 n) by lia.
  rewrite <- Zplus_mod. rewrite Z.mod_pow2_bits_low by lia.
  f_equal. lia.
Qed.

Lemma nba_next_bits (r n : Z) :
  Z.testbit (nba_next 0 r) n =
  if n <? 0 then false
  else if n <? 16 then Z.testbit (r + 1) n
  else if n <? 32 then Z.testbit (Z.shiftr r 16 + 1) (n - 16)
  else (n <? 64) && Z.testbit r n.
Proof.
  unfold nba_next, nba_update_field, nba_update_low. cbn [truthy Z.eqb negb].
  destruct (Z.ltb_spec n 0) as [Hn | Hn]; [apply Z.testbit_neg_r; lia |].
  push_testbit.
  destruct (Z.ltb_spec n 16) as [H16 | H16].
  - rewrite (testbit_add32_low r n) by lia. split_cmp.
  - destruct (Z.ltb_spec n 32) as [H32 | H32].
    + rewrite (testbit_add32_low (Z.shiftr r 16) (n - 16)) by lia. split_cmp.
    + split_cmp.
Qed.

Lemma field16_mod (r : Z) : field16 r = Z.shiftr r 16 mod 2 ^ 16.
Proof.
  unfold field16. rewrite Z.land_comm.
  exact (Z.land_ones (Z.shiftr r 16) 16 ltac:(lia)).
Qed.

(** The low 32 bits are the 16-bit field over bits 15:0. *)
Lemma low_field_split (x : Z) :
  low_field x = 0x10000 * field16 x + x mod 0x10000.
Proof.
  unfold low_field, IData. rewrite field16_mod, Z.shiftr_div_pow2 by lia.
  change (2 ^ 32) with (2 ^ 16 * 2 ^ 16). change 0x10000 with (2 ^ 16).
  rewrite Z.rem_mul_r by lia. lia.
Qed.

(** The 16-bit field goes up by one modulo [0x10000], whatever the rest of
    the register holds: no carry comes in from bits 15:0. *)
Lemma field16_nba_next (r : Z) :
  field16 (nba_next 0 r) = (field16 r + 1) mod 0x10000.
Proof.
  rewrite !field16_mod.
  change 0x10000 with (2 ^ 16).
  rewrite Zplus_mod, Zmod_mod, <- Zplus_mod.
  apply Z.bits_inj'. intros k Hk.
  rewrite !Z.testbit_mod_pow2 by lia.
  destruct (Z.ltb_spec k 16) as [H16 | H16]; [| reflexivity].
  cbn [andb]. rewrite Z.shiftr_spec by lia.
  rewrite nba_next_bits. split_cmp. f_equal. lia.
Qed.

(** Bits 15:0 of the register follow the 32-bit increment. *)
Lemma low16_nba_next (r : Z) : nba_next 0 r mod 2 ^ 16 = (r + 1) mod 2 ^ 16.
Proof.
  apply Z.bits_inj'. intros k Hk.
  rewrite !Z.testbit_mod_pow2 by lia.
  destruct (Z.ltb_spec k 16) as [H16 | H16]; [| reflexivity].
  cbn [andb]. rewrite nba_next_bits. split_cmp.
Qed.

(** Each update keeps bits 63:32 of the delayed copy. *)
Lemma nba_update_low_hi32 (dly r n : Z) :
  32 <= n < 64 -> Z.testbit (nba_update_low dly r) n = Z.testbit dly n.
Proof. intros Hn. unfold nba_update_low. push_testbit. split_cmp. Qed.

Lemma nba_update_field_hi32 (dly r n : Z) :
  32 <= n < 64 -> Z.testbit (nba_update_field dly r) n = Z.testbit dly n.
Proof. intros Hn. unfold nba_update_field. push_testbit. split_cmp. Qed.

(** Bits 63:32 are kept by both updates together. *)
Lemma hi32_nba_next (r n : Z) :
  32 <= n < 64 -> Z.testbit (nba_next 0 r) n = Z.testbit r n.
Proof. intros Hn. rewrite nba_next_bits. split_cmp. Qed.

Lemma low_field_wraps (r : Z) :
  low_field r = 0xFFFFFFFF -> low_field (nba_next 0 r) = 0x00000000.
Proof.
  unfold low_field, IData. intros Hlow.
  assert (H1 : (r + 1) mod 2 ^ 32 = 0).
  { change (2 ^ 32) with 4294967296 in *. Z.div_mod_to_equations. lia. }
  assert (H2 : (Z.shiftr r 16 + 1) mod 2 ^ 16 = 0).
  { rewrite Z.shiftr_div_pow2 by lia.
    change (2 ^ 32) with 4294967296 in *. change (2 ^ 16) with 65536.
    Z.div_mod_to_equations. lia. }
  apply Z.bits_inj'. intros k Hk.
  rewrite Z.testbit_mod_pow2 by lia. rewrite nba_next_bits, Z.bits_0.
  destruct (Z.ltb_spec k 32) as [H32 | H32]; [| reflexivity].
  cbn [andb]. split_cmp.
  - rewrite <- (Z.mod_pow2_bits_low (r + 1) 32 k) by lia.
    rewrite H1. apply Z.bits_0.
  - rewrite <- (Z.mod_pow2_bits_low (Z.shiftr r 16 + 1) 16 (k - 16)) by lia.
    rewrite H2. apply Z.bits_0.
Qed.

(** The output expression, bit by bit. *)
Lemma stl_val_bits (r_hi r_lo k : Z) :
  Z.testbit (stl_val r_hi r_lo) k =
  if k =? 0 then Z.testbit r_lo 0
  else if (1 <=? k) && (k <? 4) then Z.testbit r_hi (k + 16)
  else false.
Proof.
  unfold stl_val.
  destruct (Z.ltb_spec k 0) as [Hn | Hn].
  - rewrite Z.testbit_neg_r by lia. split_cmp.
  - push_testbit. split_cmp; try (subst k; reflexivity).
    rewrite Z.shiftr_spec by lia. f_equal. lia.
Qed.

(** ** What one run of each logic block does *)

Lemma nba_sequent_run (s : Vregfile___024root) :
  Vregfile___024root___nba_sequent__TOP__0 s =
  Done tt (nba_post s) (nba_trace (reset s) (regfile__DOT__regs s)).
Proof.
  unfold Vregfile___024root___nba_sequent__TOP__0, nba_post, nba_trace, nba_next.
  destruct s as [clk rst fi pc pr ac v ic rg st at_ nb].
  cbn. destruct (truthy rst); reflexivity.
Qed.

Lemma stl_sequent_run (s : Vregfile___024root) :
  Vregfile___024root___stl_sequent__TOP__0 s =
  Done tt (set_val (stl_val (regfile__DOT__regs s) (regfile__DOT__regs s)) s)
          (stl_trace (regfile__DOT__regs s)).
Proof. destruct s. reflexivity. Qed.

Lemma prefix_trace_nil {St A} (r : Result St A) : prefix_trace [] r = r.
Proof. destruct r; reflexivity. Qed.

(** ** One turn of each convergence loop *)

Section LoopEquations.

Variable phase : M Vregfile___024root bool.

Lemma stl_loop_eq (fuel : nat) (count cont : Z) (s : Vregfile___024root) :
  stl_loop phase (S fuel) count cont s =
  if truthy cont then
    if 0x64 <? count then Fatal diag_stl []
    else
      match phase s with
      | Done b s1 t1 =>
          prefix_trace t1
            (stl_loop phase fuel (IData (IData 1 + count)) (if b then 1 else 0)
               (set___VstlFirstIteration 0 s1))
      | Fatal d t1 => Fatal d t1
      | OutOfFuel => OutOfFuel
      end
  else Done tt s [].
Proof.
  cbn [stl_loop]. destruct (truthy cont); [| reflexivity].
  unfold bind at 1. destruct (0x64 <? count); [reflexivity |].
  unfold ret at 1. rewrite prefix_trace_nil.
  unfold bind at 1. destruct (phase s) as [b s1 t1 | d t1 |]; try reflexivity.
  unfold bind at 1, modify at 1. rewrite prefix_trace_nil. reflexivity.
Qed.

Lemma act_loop_eq (fuel : nat) (s : Vregfile___024root) :
  act_loop phase (S fuel) s =
  if truthy (__VactContinue s) then
    if 0x64 <? __VactIterCount s then Fatal diag_act []
    else
      match phase (set___VactContinue 0
                     (set___VactIterCount (IData (IData 1 + __VactIterCount s)) s)) with
      | Done b s1 t1 =>
          prefix_trace t1
            (act_loop phase fuel (if b then set___VactContinue 1 s1 else s1))
      | Fatal d t1 => Fatal d t1
      | OutOfFuel => OutOfFuel
      end
  else Done tt s [].
Proof.
  cbn [act_loop]. unfold bind at 1, get at 1. rewrite prefix_trace_nil.
  destruct (truthy (__VactContinue s)); [| reflexivity].
  unfold bind at 1, get at 1. rewrite prefix_trace_nil.
  unfold bind at 1. destruct (0x64 <? __VactIterCount s); [reflexivity |].
  unfold ret at 1. rewrite prefix_trace_nil.
  unfold bind at 1, modify at 1. rewrite prefix_trace_nil.
  unfold bind at 1, modify at 1. rewrite prefix_trace_nil.
  unfold bind at 1.
  destruct (phase _) as [b s1 t1 | d t1 |]; try reflexivity.
  unfold bind at 1. destruct b.
  - unfold modify at 1. rewrite prefix_trace_nil. reflexivity.
  - unfold ret at 1. rewrite prefix_trace_nil. reflexivity.
Qed.

End LoopEquations.

Section NbaLoopEquation.

Variable phase__act phase__nba : M Vregfile___024root bool.

Lemma nba_loop_eq (fuel : nat) (count cont : Z) (s : Vregfile___024root) :
  nba_loop phase__act phase__nba (S fuel) count cont s =
  if truthy cont then
    if 0x64 <? count then Fatal diag_nba []
    else
      match act_loop phase__act converge_fuel
              (set___VactContinue 1 (set___VactIterCount 0 s)) with
      | Done _ s1 t1 =>
          prefix_trace t1
            match phase__nba s1 with
            | Done b s2 t2 =>
                prefix_trace t2
                  (nba_loop phase__act phase__nba fuel (IData (IData 1 + count))
                     (if b then 1 else 0) s2)
            | Fatal d t2 => Fatal d t2
            | OutOfFuel => OutOfFuel
            end
      | Fatal d t1 => Fatal d t1
      | OutOfFuel => OutOfFuel
      end
  else Done tt s [].
Proof.
  cbn [nba_loop]. destruct (truthy cont); [| reflexivity].
  unfold bind at 1. destruct (0x64 <? count); [reflexivity |].
  unfold ret at 1. rewrite prefix_trace_nil.
  unfold bind at 1, modify at 1. rewrite prefix_trace_nil.
  unfold bind at 1, modify at 1. rewrite prefix_trace_nil.
  unfold bind at 1.
  unfold bind at 1. reflexivity.
Qed.

End NbaLoopEquation.

(** ** The phases of this design *)

Lemma rising_same (c : Z) : rising c c = false.
Proof.
  unfold rising. destruct (Z.eqb_spec c 0), (Z.eqb_spec c 1); try reflexivity. lia.
Qed.

Lemma eval_phase__act_run (s : Vregfile___024root) :
  Vregfile___024root___eval_phase__act s =
  Done (TriggerVec.any (edges s)) (act_post s) [].
Proof.
  destruct s as [clk rst fi pc pr ac v ic rg st [a0 [a1 []]] [n0 [n1 []]]].
  unfold Vregfile___024root___eval_phase__act, Vregfile___024root___eval_triggers__act,
    Vregfile___024root___eval_act, act_post, edges.
  cbn. destruct (rising clk pc), (rising rst pr); cbn;
    rewrite ?orb_false_r; reflexivity.
Qed.

Lemma eval_phase__nba_run (s : Vregfile___024root) :
  Vregfile___024root___eval_phase__nba s =
  if TriggerVec.any (__VnbaTriggered s) then
    Done true (set___VnbaTriggered (TriggerVec.clear 2) (nba_post s))
         (nba_trace (reset s) (regfile__DOT__regs s))
  else Done false s [].
Proof.
  unfold Vregfile___024root___eval_phase__nba, Vregfile___024root___eval_nba.
  unfold bind at 1, get at 1. rewrite prefix_trace_nil.
  destruct (TriggerVec.any (__VnbaTriggered s)) eqn:Hany.
  - assert (Hw : truthy (Z.land 3 (TriggerVec.word (__VnbaTriggered s) 0)) = true).
    { destruct (__VnbaTriggered s) as [n0 [n1 []]].
      destruct n0, n1; try reflexivity. discriminate Hany. }
    unfold bind at 1. unfold bind at 1. unfold bind at 1, get at 1.
    rewrite prefix_trace_nil, Hw, nba_sequent_run.
    cbn [prefix_trace modify ret app]. rewrite !app_nil_r. reflexivity.
  - reflexivity.
Qed.

Lemma eval_phase__stl_run (s : Vregfile___024root) :
  Vregfile___024root___eval_phase__stl s =
  if truthy (__VstlFirstIteration s) then
    Done true
      (set_val (stl_val (regfile__DOT__regs s) (regfile__DOT__regs s))
         (set___VstlTriggered (true, tt) s))
      (stl_trace (regfile__DOT__regs s))
  else Done false (set___VstlTriggered (false, tt) s) [].
Proof.
  destruct s as [clk rst fi pc pr ac v ic rg [s0 []] at_ nb].
  unfold Vregfile___024root___eval_phase__stl, Vregfile___024root___eval_triggers__stl,
    Vregfile___024root___eval_stl.
  cbn. destruct (truthy fi); reflexivity.
Qed.

(** ** The loops of this design *)

Ltac root_fields :=
  cbn [clock reset __VstlFirstIteration __Vtrigprevexpr___TOP__clock__0
       __Vtrigprevexpr___TOP__reset__0 __VactContinue val __VactIterCount
       regfile__DOT__regs __VstlTriggered __VactTriggered __VnbaTriggered
       set_clock set_reset set___VstlFirstIteration
       set___Vtrigprevexpr___TOP__clock__0 set___Vtrigprevexpr___TOP__reset__0
       set___VactContinue set_val set___VactIterCount set_regfile__DOT__regs
       set___VstlTriggered set___VactTriggered set___VnbaTriggered
       prefix_trace app fst snd].

Lemma act_loop_run (s : Vregfile___024root) :
  act_loop Vregfile___024root___eval_phase__act converge_fuel
    (set___VactContinue 1 (set___VactIterCount 0 s)) =
  Done tt (act_done s) [].
Proof.
  destruct s as [clk rst fi pc pr ac v ic rg st [a0 [a1 []]] [n0 [n1 []]]].
  unfold converge_fuel, act_done.
  rewrite act_loop_eq. root_fields.
  change (truthy 1) with true. change (0x64 <? 0) with false. cbv iota.
  change (IData (IData 1 + 0)) with 1.
  rewrite eval_phase__act_run. unfold act_post, edges. root_fields.
  destruct (rising clk pc), (rising rst pr);
    cbn [TriggerVec.any TriggerVec.thisOr TriggerVec.clear fst snd orb];
    rewrite act_loop_eq; root_fields;
    try (change (truthy 1) with true; change (0x64 <? 1) with false; cbv iota;
         change (IData (IData 1 + 1)) with 2;
         rewrite eval_phase__act_run; unfold act_post, edges; root_fields;
         rewrite !rising_same;
         cbn [TriggerVec.any TriggerVec.thisOr fst snd orb];
         rewrite act_loop_eq; root_fields);
    change (truthy 0) with false; cbv iota;
    rewrite ?orb_false_r; reflexivity.
Qed.

Lemma eval_run (s : Vregfile___024root) :
  Vregfile___024root___eval s = Done tt (eval_post s) (eval_trace s).
Proof.
  unfold Vregfile___024root___eval, eval_with, converge_fuel.
  rewrite nba_loop_eq.
  change (truthy 1) with true. change (0x64 <? 0) with false. cbv iota.
  change (IData (IData 1 + 0)) with 1.
  rewrite act_loop_run. rewrite prefix_trace_nil.
  rewrite eval_phase__nba_run.
  unfold eval_post, eval_trace, fires.
  destruct s as [clk rst fi pc pr ac v ic rg st [a0 [a1 []]] [n0 [n1 []]]].
  unfold act_done at 1. root_fields.
  destruct (TriggerVec.any _) eqn:Hfire.
  - rewrite nba_loop_eq.
    change (truthy 1) with true. change (0x64 <? 1) with false. cbv iota.
    rewrite act_loop_run. rewrite prefix_trace_nil.
    rewrite eval_phase__nba_run.
    unfold act_done, nba_post, eval_base, edges. root_fields.
    rewrite !rising_same.
    cbn [TriggerVec.any TriggerVec.thisOr TriggerVec.clear fst snd orb].
    rewrite nba_loop_eq. change (truthy 0) with false. cbv iota.
    root_fields. rewrite !app_nil_r. reflexivity.
  - rewrite nba_loop_eq. change (truthy 0) with false. cbv iota.
    root_fields. unfold act_done, eval_base, edges in *. root_fields.
    cbn [TriggerVec.any TriggerVec.thisOr fst snd clock reset
         __Vtrigprevexpr___TOP__clock__0 __Vtrigprevexpr___TOP__reset__0] in Hfire.
    destruct (rising clk pc), (rising rst pr), n0, n1;
      try discriminate Hfire; reflexivity.
Qed.

Lemma eval_settle_run (s : Vregfile___024root) :
  Vregfile___024root___eval_settle s =
  Done tt (settle_post s) (stl_trace (regfile__DOT__regs s)).
Proof.
  destruct s as [clk rst fi pc pr ac v ic rg st at_ nb].
  unfold Vregfile___024root___eval_settle, eval_settle_with, converge_fuel, settle_post.
  unfold bind at 1, modify at 1. rewrite prefix_trace_nil.
  rewrite stl_loop_eq.
  change (truthy 1) with true. change (0x64 <? 0) with false. cbv iota.
  change (IData (IData 1 + 0)) with 1.
  rewrite eval_phase__stl_run. root_fields.
  change (truthy 1) with true. cbv iota.
  rewrite stl_loop_eq.
  change (truthy 1) with true. change (0x64 <? 1) with false. cbv iota.
  rewrite eval_phase__stl_run. root_fields.
  change (truthy 0) with false. cbv iota. root_fields.
  rewrite stl_loop_eq. change (truthy 0) with false. cbv iota.
  root_fields. reflexivity.
Qed.

Lemma eval_static_run (s : Vregfile___024root) :
  Vregfile___024root___eval_static s = Done tt (static_post s) [].
Proof. destruct s. reflexivity. Qed.

Lemma eval_step_run (y : Vregfile__Syms) :
  Vregfile__eval_step y = Done tt (step_post y) (step_trace y).
Proof.
  destruct y as [d s].
  unfold Vregfile__eval_step, step_post, step_trace, step_init.
  unfold bind at 1, get at 1. rewrite prefix_trace_nil.
  cbn [__Vm_didInit TOP]. destruct d; cbn [negb].
  - unfold bind at 1, ret at 1. rewrite prefix_trace_nil.
    unfold on_TOP. cbn [TOP __Vm_didInit]. rewrite eval_run. reflexivity.
  - unfold bind at 1. unfold bind at 1, modify at 1. rewrite prefix_trace_nil.
    unfold bind at 1. unfold on_TOP at 1. cbn [TOP __Vm_didInit].
    rewrite eval_static_run. rewrite prefix_trace_nil.
    unfold bind at 1. unfold on_TOP at 1. cbn [TOP __Vm_didInit].
    unfold Vregfile___024root___eval_initial, ret at 1. rewrite prefix_trace_nil.
    unfold on_TOP at 1. cbn [TOP __Vm_didInit].
    rewrite eval_settle_run. cbn [prefix_trace].
    unfold on_TOP. cbn [TOP __Vm_didInit]. rewrite eval_run.
    cbn [prefix_trace]. destruct s. cbn [static_post regfile__DOT__regs
      set___Vtrigprevexpr___TOP__reset__0 set___Vtrigprevexpr___TOP__clock__0].
    reflexivity.
Qed.

(** ** Reading the outcome of one evaluation *)

Lemma nba_next_no_reset (rst r : Z) :
  truthy rst = false -> nba_next rst r = nba_next 0 r.
Proof. intros H. unfold nba_next. rewrite H. reflexivity. Qed.

Lemma nba_next_reset (rst r : Z) : rst <> 0 -> nba_next rst r = 0.
Proof.
  intros H. unfold nba_next, truthy.
  destruct (Z.eqb_spec rst 0); [contradiction | reflexivity].
Qed.

Lemma rising_iff (cur prev : Z) : rising cur prev = true <-> prev = 0 /\ cur = 1.
Proof.
  unfold rising. destruct (Z.eqb_spec prev 0), (Z.eqb_spec cur 1); cbn;
    split; intros H; try discriminate; try tauto; destruct H; contradiction.
Qed.

Lemma fires_on_clock_edge (s : Vregfile___024root) :
  __Vtrigprevexpr___TOP__clock__0 s = 0 -> clock s = 1 -> fires s = true.
Proof.
  intros Hp Hc. unfold fires, edges.
  destruct (__VnbaTriggered s) as [n0 [n1 []]].
  assert (Hr : rising (clock s) (__Vtrigprevexpr___TOP__clock__0 s) = true)
    by (apply rising_iff; split; assumption).
  rewrite Hr. cbn. rewrite orb_true_r. reflexivity.
Qed.

Lemma regs_nba_post (s : Vregfile___024root) :
  regfile__DOT__regs (nba_post s) = nba_next (reset s) (regfile__DOT__regs s).
Proof. destruct s. reflexivity. Qed.

Lemma val_nba_post (s : Vregfile___024root) :
  val (nba_post s) =
  nba_val (nba_next (reset s) (regfile__DOT__regs s))
          (nba_next (reset s) (regfile__DOT__regs s)).
Proof. destruct s. reflexivity. Qed.

(** After an evaluation that ran the sequential block. *)
Lemma eval_post_fired (s : Vregfile___024root) :
  fires s = true ->
  regfile__DOT__regs (eval_post s) = nba_next (reset s) (regfile__DOT__regs s) /\
  val (eval_post s) =
  nba_val (nba_next (reset s) (regfile__DOT__regs s))
          (nba_next (reset s) (regfile__DOT__regs s)).
Proof.
  intros H. unfold eval_post. rewrite H.
  rewrite regs_nba_post, val_nba_post. destruct s. split; reflexivity.
Qed.

(** After an evaluation that did not. *)
Lemma eval_post_quiet (s : Vregfile___024root) :
  fires s = false ->
  regfile__DOT__regs (eval_post s) = regfile__DOT__regs s /\
  val (eval_post s) = val s.
Proof. intros H. unfold eval_post. rewrite H. destruct s. split; reflexivity. Qed.

(** * The properties of the specification *)

(** C1 -- Reset clears state.  For every value of the internal register, an
    evaluation that sees a rising clock edge while reset is asserted leaves
    the internal register at 0 and an output whose bit 0 and bits 1 to 3 are
    0. *)
Theorem reset_clears_state (s : Vregfile___024root) :
  reset s <> 0 ->
  __Vtrigprevexpr___TOP__clock__0 s = 0 ->
  clock s = 1 ->
  exists s' tr,
    Vregfile___024root___eval s = Done tt s' tr /\
    regfile__DOT__regs s' = 0 /\
    Z.testbit (val s') 0 = false /\
    (forall k, 1 <= k <= 3 -> Z.testbit (val s') k = false).
Proof.
  intros Hrst Hprev Hclk.
  exists (eval_post s), (eval_trace s).
  split; [apply eval_run |].
  destruct (eval_post_fired s (fires_on_clock_edge s Hprev Hclk)) as [Hr Hv].
  rewrite Hr, Hv, (nba_next_reset _ _ Hrst).
  split; [reflexivity |]. split; [reflexivity |].
  intros k Hk. change (nba_val 0 0) with 0. apply Z.bits_0.
Qed.

Lemma reset_clears_state_witness :
  exists s' tr,
    Vregfile___024root___eval reset_edge_state = Done tt s' tr /\
    regfile__DOT__regs s' = 0 /\
    Z.testbit (val s') 0 = false /\
    (forall k, 1 <= k <= 3 -> Z.testbit (val s') k = false).
Proof.
  apply (reset_clears_state reset_edge_state).
  - discriminate.
  - reflexivity.
  - reflexivity.
Defined.

Lemma next16_nba_next (r : Z) : next16 (nba_next 0 r) = next16 r.
Proof.
  unfold next16. apply Z.bits_inj'. intros k Hk.
  rewrite !Z.land_spec, testbit_mask_ffff, !Z.shiftr_spec by lia.
  destruct (Z.ltb_spec k 16) as [H16 | H16].
  - rewrite hi32_nba_next by lia. reflexivity.
  - split_cmp.
Qed.

(** C3 fails with the 16-bit field read as the specification places it:
    from [0x0000abcdffffffff] the low field does become 0, but bits 47:32
    stay [0xabcd]; no update of the block writes them.  Nor is the low
    field incremented modulo [2^32] in general: from a low field of
    [0x0001fffe] it becomes [0x0002ffff]. *)
Lemma increment_as_specified_fails :
  (exists s' tr,
     Vregfile___024root___eval wrap_edge_state = Done tt s' tr /\
     low_field (regfile__DOT__regs s') = 0x00000000 /\
     next16 (regfile__DOT__regs wrap_edge_state) = 0xabcd /\
     next16 (regfile__DOT__regs s') = 0xabcd /\
     next16 (regfile__DOT__regs s') <>
     (next16 (regfile__DOT__regs wrap_edge_state) + 1) mod 0x10000) /\
  (exists s' tr,
     Vregfile___024root___eval carry_edge_state = Done tt s' tr /\
     low_field (regfile__DOT__regs carry_edge_state) = 0x0001fffe /\
     low_field (regfile__DOT__regs s') = 0x0002ffff /\
     low_field (regfile__DOT__regs s') <>
     (low_field (regfile__DOT__regs carry_edge_state) + 1) mod 2 ^ 32) /\
  ~ increment_as_specified.
Proof.
  split; [| split].
  - eexists. eexists. split; [apply eval_run |].
    repeat split; vm_compute; congruence.
  - eexists. eexists. split; [apply eval_run |].
    repeat split; vm_compute; congruence.
  - intros H.
    destruct (H wrap_edge_state _ _ eq_refl eq_refl eq_refl eq_refl
                (eval_run wrap_edge_state)) as [_ Hn].
    vm_compute in Hn. discriminate Hn.
Qed.

(** C3, amended -- with reset deasserted, an evaluation that sees a rising
    clock edge increments two 16-bit counters, each from the register value
    before the edge: bits 15:0 become [(regs + 1) mod 0x10000] and the
    16-bit field, which is bits 31:16 (the upper half of the low field),
    becomes its previous value plus one modulo [0x10000], for every register
    value and without the carry of the low increment.  The low field is
    made of these two halves; from [0xFFFFFFFF] it becomes [0x00000000].
    Bits 47:32, and all of bits 63:32, keep their values. *)
Theorem halves_increment_on_clock_edge (s : Vregfile___024root) :
  reset s = 0 ->
  __Vtrigprevexpr___TOP__clock__0 s = 0 ->
  clock s = 1 ->
  exists s' tr,
    Vregfile___024root___eval s = Done tt s' tr /\
    field16 (regfile__DOT__regs s') =
    (field16 (regfile__DOT__regs s) + 1) mod 0x10000 /\
    regfile__DOT__regs s' mod 0x10000 =
    (regfile__DOT__regs s + 1) mod 0x10000 /\
    low_field (regfile__DOT__regs s') =
    0x10000 * ((field16 (regfile__DOT__regs s) + 1) mod 0x10000) +
    (regfile__DOT__regs s + 1) mod 0x10000 /\
    (low_field (regfile__DOT__regs s) = 0xFFFFFFFF ->
     low_field (regfile__DOT__regs s') = 0x00000000) /\
    next16 (regfile__DOT__regs s') = next16 (regfile__DOT__regs s) /\
    (forall k, 32 <= k < 64 ->
       Z.testbit (regfile__DOT__regs s') k = Z.testbit (regfile__DOT__regs s) k).
Proof.
  intros Hrst Hprev Hclk.
  exists (eval_post s), (eval_trace s).
  split; [apply eval_run |].
  destruct (eval_post_fired s (fires_on_clock_edge s Hprev Hclk)) as [Hr _].
  rewrite Hr, Hrst.
  assert (Hf : field16 (nba_next 0 (regfile__DOT__regs s)) =
               (field16 (regfile__DOT__regs s) + 1) mod 0x10000)
    by apply field16_nba_next.
  assert (Hl : nba_next 0 (regfile__DOT__regs s) mod 0x10000 =
               (regfile__DOT__regs s + 1) mod 0x10000)
    by apply low16_nba_next.
  split; [exact Hf |]. split; [exact Hl |]. split.
  - rewrite low_field_split, Hf, Hl. reflexivity.
  - split; [apply low_field_wraps |].
    split; [apply next16_nba_next |].
    intros k Hk. apply hi32_nba_next. exact Hk.
Qed.

Lemma halves_increment_on_clock_edge_witness :
  exists s' tr,
    Vregfile___024root___eval carry_edge_state = Done tt s' tr /\
    field16 (regfile__DOT__regs s') =
    (field16 (regfile__DOT__regs carry_edge_state) + 1) mod 0x10000 /\
    regfile__DOT__regs s' mod 0x10000 =
    (regfile__DOT__regs carry_edge_state + 1) mod 0x10000 /\
    low_field (regfile__DOT__regs s') =
    0x10000 * ((field16 (regfile__DOT__regs carry_edge_state) + 1) mod 0x10000) +
    (regfile__DOT__regs carry_edge_state + 1) mod 0x10000 /\
    (low_field (regfile__DOT__regs carry_edge_state) = 0xFFFFFFFF ->
     low_field (regfile__DOT__regs s') = 0x00000000) /\
    next16 (regfile__DOT__regs s') = next16 (regfile__DOT__regs carry_edge_state) /\
    (forall k, 32 <= k < 64 ->
       Z.testbit (regfile__DOT__regs s') k =
       Z.testbit (regfile__DOT__regs carry_edge_state) k).
Proof.
  apply (halves_increment_on_clock_edge carry_edge_state); reflexivity.
Defined.

(** C6 fails on a register with bit 48 set: the reset branch assigns [0ULL],
    which clears that bit as well. *)
Lemma reset_keeps_bits_48_63_fails :
  Z.testbit (regfile__DOT__regs bit48_state) 48 = true /\
  (exists s' tr,
     Vregfile___024root___nba_sequent__TOP__0 bit48_state = Done tt s' tr /\
     Z.testbit (regfile__DOT__regs s') 48 = false) /\
  ~ reset_keeps_bits_48_63.
Proof.
  split; [reflexivity |]. split.
  - eexists. eexists. split; [apply nba_sequent_run | reflexivity].
  - intros H.
    specialize (H bit48_state _ _ ltac:(discriminate)
                  (nba_sequent_run bit48_state) 48 ltac:(lia)).
    discriminate H.
Qed.

(** C6, amended -- with reset asserted, the sequential block writes 0 to the
    whole 64-bit register, in one write: bits 0 to 47 and bits 48 to 63 alike
    are cleared, so a bit among 48 to 63 is unchanged exactly when it was
    already 0.  Apart from the register and the output, no member of the
    design state changes. *)
Theorem reset_clears_whole_register (s : Vregfile___024root) :
  reset s <> 0 ->
  exists s' tr,
    Vregfile___024root___nba_sequent__TOP__0 s = Done tt s' tr /\
    regfile__DOT__regs s' = 0 /\
    writes_of tr = [0] /\
    (forall n, Z.testbit (regfile__DOT__regs s') n = false) /\
    (forall n, 48 <= n <= 63 ->
       (Z.testbit (regfile__DOT__regs s') n = Z.testbit (regfile__DOT__regs s) n
        <-> Z.testbit (regfile__DOT__regs s) n = false)) /\
    set_val (val s) (set_regfile__DOT__regs (regfile__DOT__regs s) s') = s.
Proof.
  intros Hrst.
  exists (nba_post s), (nba_trace (reset s) (regfile__DOT__regs s)).
  split; [apply nba_sequent_run |].
  assert (Hregs : regfile__DOT__regs (nba_post s) = 0)
    by (rewrite regs_nba_post; apply nba_next_reset; exact Hrst).
  split; [exact Hregs |]. split.
  - unfold nba_trace. rewrite (nba_next_reset _ _ Hrst).
    unfold truthy. destruct (Z.eqb_spec (reset s) 0); [contradiction | reflexivity].
  - split; [intros n; rewrite Hregs; apply Z.bits_0 |]. split.
    + intros n _. rewrite Hregs, Z.bits_0. split; intros H; symmetry; exact H.
    + destruct s. reflexivity.
Qed.

Lemma reset_clears_whole_register_witness :
  exists s' tr,
    Vregfile___024root___nba_sequent__TOP__0 bit48_state = Done tt s' tr /\
    regfile__DOT__regs s' = 0 /\
    writes_of tr = [0] /\
    (forall n, Z.testbit (regfile__DOT__regs s') n = false) /\
    (forall n, 48 <= n <= 63 ->
       (Z.testbit (regfile__DOT__regs s') n =
        Z.testbit (regfile__DOT__regs bit48_state) n
        <-> Z.testbit (regfile__DOT__regs bit48_state) n = false)) /\
    set_val (val bit48_state)
      (set_regfile__DOT__regs (regfile__DOT__regs bit48_state) s') = bit48_state.
Proof.
  apply (reset_clears_whole_register bit48_state). discriminate.
Defined.

(** C7 -- Non-blocking assignment.  In one run of the sequential block, the
    log is: the entry, then reads of the register that all return the value
    at entry, then the only write of the register, then the two reads and
    the write of the output assignment.  The value written is a function of
    the entry value alone, and each field is incremented from its entry
    value: bits 15:0 follow [regs + 1] and the 16-bit field is its entry
    value plus one, without the carry that the low increment would have
    pushed into it. *)
Theorem nba_reads_then_single_write (s : Vregfile___024root) :
  exists s' pre,
    Vregfile___024root___nba_sequent__TOP__0 s =
    Done tt s'
      (Enter nba_sequent__TOP__0 :: pre ++
       [WrRegs (regfile__DOT__regs s');
        RdRegs (regfile__DOT__regs s'); RdRegs (regfile__DOT__regs s');
        WrVal (val s')]) /\
    pre <> [] /\
    Forall (fun e => e = RdRegs (regfile__DOT__regs s)) pre /\
    regfile__DOT__regs s' = nba_next (reset s) (regfile__DOT__regs s) /\
    (if truthy (reset s) then regfile__DOT__regs s' = 0
     else field16 (regfile__DOT__regs s') =
          (field16 (regfile__DOT__regs s) + 1) mod 0x10000 /\
          regfile__DOT__regs s' mod 2 ^ 16 =
          (regfile__DOT__regs s + 1) mod 2 ^ 16).
Proof.
  exists (nba_post s).
  exists (RdRegs (regfile__DOT__regs s) ::
          (if truthy (reset s) then []
           else [RdRegs (regfile__DOT__regs s); RdRegs (regfile__DOT__regs s)])).
  rewrite nba_sequent_run, regs_nba_post, val_nba_post.
  split.
  - unfold nba_trace. cbn [app]. reflexivity.
  - split; [discriminate |]. split.
    + destruct (truthy (reset s)); repeat constructor.
    + split; [reflexivity |].
      destruct (truthy (reset s)) eqn:Hrst.
      * unfold nba_next. rewrite Hrst. reflexivity.
      * rewrite (nba_next_no_reset _ _ Hrst). split.
        -- apply field16_nba_next.
        -- apply low16_nba_next.
Qed.

(** C10 -- The settle block and the output assignment of the sequential
    block compute the same function of the register, so running the settle
    block right after the sequential block leaves the state as it is. *)
Theorem settle_output_is_nba_output (r : Z) (s : Vregfile___024root) :
  stl_val r r = nba_val r r /\
  exists s1 t1 s2 t2,
    Vregfile___024root___nba_sequent__TOP__0 s = Done tt s1 t1 /\
    Vregfile___024root___stl_sequent__TOP__0 s1 = Done tt s2 t2 /\
    val s2 = val s1 /\ s2 = s1 /\
    Vregfile___024root___stl_sequent__TOP__0 (set_regfile__DOT__regs r s) =
    Done tt (set_val (nba_val r r) (set_regfile__DOT__regs r s)) (stl_trace r).
Proof.
  split; [reflexivity |].
  exists (nba_post s), (nba_trace (reset s) (regfile__DOT__regs s)).
  exists (nba_post s), (stl_trace (regfile__DOT__regs (nba_post s))).
  split; [apply nba_sequent_run |].
  rewrite !stl_sequent_run.
  repeat split; destruct s; reflexivity.
Qed.

(** C2 fails after the second clock edge: the register is [0x00020002] and
    the output is 2, where the specified composition gives 4 (or 0 with the
    field read at bits 47:32). *)
Lemma val_as_specified_fails :
  exists s' tr,
    Vregfile___024root___eval second_edge_state = Done tt s' tr /\
    regfile__DOT__regs s' = 0x00020002 /\
    val s' = 2 /\
    val_as_specified (regfile__DOT__regs s') = 4 /\
    val_as_specified_next16 (regfile__DOT__regs s') = 0 /\
    val s' <> val_as_specified (regfile__DOT__regs s') /\
    val s' <> val_as_specified_next16 (regfile__DOT__regs s').
Proof.
  eexists. eexists. split; [apply eval_run |].
  repeat split; vm_compute; congruence.
Qed.

Lemma out_composition_bits (r k : Z) :
  Z.testbit (out_composition r) k =
  if k =? 0 then Z.testbit r 0
  else if (1 <=? k) && (k <=? 3) then Z.testbit r (16 + k)
  else false.
Proof.
  unfold out_composition, low_field, field16.
  destruct (Z.ltb_spec k 0) as [Hk | Hk].
  - rewrite Z.testbit_neg_r by lia. split_cmp.
  - push_testbit. split_cmp; try (subst k; reflexivity).
    f_equal. lia.
Qed.

Lemma stl_val_composition (r : Z) : stl_val r r = out_composition r.
Proof.
  apply Z.bits_inj'. intros k Hk.
  rewrite stl_val_bits, out_composition_bits. split_cmp. f_equal. lia.
Qed.

(** C2, amended -- after a run of the sequential block, after a run of the
    settle block and after the settle phase, the output is: bit 0 = bit 0 of
    the low field; bits 1 to 3 = bits 1 to 3 of the 16-bit field (register
    bits 17 to 19), not its low three bits moved up; bits 4 to 31 = 0. *)
Theorem output_composition (s : Vregfile___024root) :
  (exists s' tr,
     Vregfile___024root___nba_sequent__TOP__0 s = Done tt s' tr /\
     val s' = out_composition (regfile__DOT__regs s')) /\
  (exists s' tr,
     Vregfile___024root___stl_sequent__TOP__0 s = Done tt s' tr /\
     val s' = out_composition (regfile__DOT__regs s')) /\
  (exists s' tr,
     Vregfile___024root___eval_settle s = Done tt s' tr /\
     val s' = out_composition (regfile__DOT__regs s')) /\
  (forall r,
     Z.testbit (out_composition r) 0 = Z.testbit (low_field r) 0 /\
     (forall k, 1 <= k <= 3 ->
        Z.testbit (out_composition r) k = Z.testbit (field16 r) k /\
        Z.testbit (out_composition r) k = Z.testbit r (16 + k)) /\
     (forall k, 4 <= k -> Z.testbit (out_composition r) k = false)).
Proof.
  split; [| split; [| split]].
  - exists (nba_post s), (nba_trace (reset s) (regfile__DOT__regs s)).
    split; [apply nba_sequent_run |].
    rewrite val_nba_post, regs_nba_post. apply stl_val_composition.
  - eexists. eexists. split; [apply stl_sequent_run |].
    destruct s. apply stl_val_composition.
  - eexists. eexists. split; [apply eval_settle_run |].
    destruct s. apply stl_val_composition.
  - intros r. split; [| split].
    + rewrite out_composition_bits. unfold low_field, IData.
      rewrite Z.testbit_mod_pow2 by lia. reflexivity.
    + intros k Hk. rewrite out_composition_bits. unfold field16.
      rewrite Z.land_spec, testbit_mask_ffff, Z.shiftr_spec by lia.
      split_cmp; split; try reflexivity; f_equal; lia.
    + intros k Hk. rewrite out_composition_bits. split_cmp.
Qed.

Lemma hi32_zero_nba_next (rst r : Z) : hi32_zero r -> hi32_zero (nba_next rst r).
Proof.
  intros H n Hn. unfold nba_next. destruct (truthy rst).
  - apply Z.bits_0.
  - change (Z.testbit (nba_next 0 r) n = false).
    rewrite nba_next_bits. split_cmp. apply H. lia.
Qed.

Lemma hi32_zero_bound (r : Z) : hi32_zero r -> 0 <= r < 2 ^ 32.
Proof.
  intros H.
  assert (Hr : r = r mod 2 ^ 32).
  { apply Z.bits_inj'. intros k Hk. rewrite Z.testbit_mod_pow2 by lia.
    destruct (Z.ltb_spec k 32); [reflexivity |]. apply H. lia. }
  rewrite Hr. apply Z.mod_pos_bound. lia.
Qed.

Lemma regs_eval_post (s : Vregfile___024root) :
  regfile__DOT__regs (eval_post s) =
  if fires s then nba_next (reset s) (regfile__DOT__regs s)
  else regfile__DOT__regs s.
Proof.
  destruct (fires s) eqn:H.
  - apply (eval_post_fired s H).
  - apply (eval_post_quiet s H).
Qed.

Lemma ctor_var_reset_regs (rnd : Z -> Z -> Z) (h : Z) (s0 s : Vregfile___024root)
    (tr : list Event) :
  Vregfile___024root___ctor_var_reset rnd h s0 = Done tt s tr ->
  regfile__DOT__regs s = 0.
Proof.
  destruct s0. unfold Vregfile___024root___ctor_var_reset. cbn.
  intros H. injection H as <- _. reflexivity.
Qed.

(** C9 -- In every reachable state, bits 63:32 of the internal register are
    zero (no bit from 32 up is set, so the register is below [2^32]). *)
Theorem high_half_stays_zero (y : Vregfile__Syms) :
  reachable y ->
  (forall n, 32 <= n <= 63 -> Z.testbit (regfile__DOT__regs (TOP y)) n = false) /\
  0 <= regfile__DOT__regs (TOP y) < 2 ^ 32.
Proof.
  intros Hy.
  assert (H : hi32_zero (regfile__DOT__regs (TOP y))).
  { induction Hy as [rnd h s0 s Hc | y c Hy IH | y r Hy IH | y y' tr Hy IH Hstep].
    - cbn [TOP]. rewrite (ctor_var_reset_regs _ _ _ _ _ Hc).
      intros n _. apply Z.bits_0.
    - destruct y as [d s]. destruct s. exact IH.
    - destruct y as [d s]. destruct s. exact IH.
    - rewrite eval_step_run in Hstep. injection Hstep as <- _.
      unfold step_post. cbn [TOP]. rewrite regs_eval_post.
      assert (Hi : hi32_zero (regfile__DOT__regs (step_init y))).
      { unfold step_init. destruct (__Vm_didInit y); [exact IH |].
        destruct (TOP y). exact IH. }
      destruct (fires (step_init y)); [apply hi32_zero_nba_next |]; exact Hi. }
  split.
  - intros n Hn. apply H. lia.
  - apply hi32_zero_bound. exact H.
Qed.

Lemma twice_clocked_reachable : reachable twice_clocked.
Proof.
  pose (y0 := mkSyms false constructed_state).
  assert (H0 : reachable y0).
  { apply (reach_ctor (fun _ _ => 0) 0 constructed_state). reflexivity. }
  pose (y1 := mkSyms true (eval_post (step_init y0))).
  assert (H1 : reachable y1) by (apply (reach_eval_step _ _ _ H0 (eval_step_run y0))).
  pose (y2 := mkSyms true (set_clock 1 (TOP y1))).
  assert (H2 : reachable y2) by (apply (reach_set_clock y1 1 H1)).
  pose (y3 := step_post y2).
  assert (H3 : reachable y3) by (apply (reach_eval_step _ _ _ H2 (eval_step_run y2))).
  pose (y4 := mkSyms true (set_clock 0 (TOP y3))).
  assert (H4 : reachable y4) by (apply (reach_set_clock y3 0 H3)).
  pose (y5 := step_post y4).
  assert (H5 : reachable y5) by (apply (reach_eval_step _ _ _ H4 (eval_step_run y4))).
  pose (y6 := mkSyms true (set_clock 1 (TOP y5))).
  assert (H6 : reachable y6) by (apply (reach_set_clock y5 1 H5)).
  exact (reach_eval_step _ _ _ H6 (eval_step_run y6)).
Defined.

Lemma high_half_stays_zero_witness :
  (forall n, 32 <= n <= 63 ->
     Z.testbit (regfile__DOT__regs (TOP twice_clocked)) n = false) /\
  0 <= regfile__DOT__regs (TOP twice_clocked) < 2 ^ 32.
Proof.
  apply (high_half_stays_zero twice_clocked). exact twice_clocked_reachable.
Defined.

(** ** Stability after an evaluation *)

Lemma fires_eval_post (s : Vregfile___024root) : fires (eval_post s) = false.
Proof.
  unfold eval_post. destruct (fires s); destruct s; unfold fires, edges;
    cbn [nba_post eval_base set_val set_regfile__DOT__regs clock reset
         __Vtrigprevexpr___TOP__clock__0 __Vtrigprevexpr___TOP__reset__0
         __VnbaTriggered];
    rewrite !rising_same; reflexivity.
Qed.

Lemma eval_base_eval_post (s : Vregfile___024root) :
  eval_base (eval_post s) = eval_post s.
Proof. unfold eval_post. destruct (fires s); destruct s; reflexivity. Qed.

Lemma eval_post_stable (s : Vregfile___024root) :
  eval_post (eval_post s) = eval_post s /\ eval_trace (eval_post s) = [].
Proof.
  unfold eval_post at 1, eval_trace at 1. rewrite fires_eval_post.
  split; [apply eval_base_eval_post | reflexivity].
Qed.

(** C5 -- Evaluation is idempotent.  For every state, [eval_step] returns,
    and a second [eval_step] on the state it leaves (clock and reset
    untouched) returns that same state, every member equal, with an empty
    log: no block is entered and neither the register nor the output is
    written. *)
Theorem eval_step_idempotent (y : Vregfile__Syms) :
  exists y1 tr1,
    Vregfile__eval_step y = Done tt y1 tr1 /\
    exists y2 tr2,
      Vregfile__eval_step y1 = Done tt y2 tr2 /\
      y2 = y1 /\
      val (TOP y2) = val (TOP y1) /\
      regfile__DOT__regs (TOP y2) = regfile__DOT__regs (TOP y1) /\
      tr2 = [].
Proof.
  exists (step_post y), (step_trace y).
  split; [apply eval_step_run |].
  exists (step_post y), [].
  split; [| repeat split].
  rewrite eval_step_run.
  destruct (eval_post_stable (step_init y)) as [Hs Ht].
  change (step_post (step_post y))
    with (mkSyms true (eval_post (eval_post (step_init y)))).
  change (step_trace (step_post y)) with (eval_trace (eval_post (step_init y))).
  rewrite Hs, Ht. reflexivity.
Qed.

(** C8 fails when the other watched signal rises: the block is sensitive to
    both edges ([3ULL & __VnbaTriggered.word(0)]), so it runs. *)
Lemma held_clock_never_runs_block_fails :
  __Vtrigprevexpr___TOP__clock__0 held_clock_reset_edge = 1 /\
  clock held_clock_reset_edge = 1 /\
  (exists s' tr,
     Vregfile___024root___eval held_clock_reset_edge = Done tt s' tr /\
     In (Enter nba_sequent__TOP__0) tr /\
     regfile__DOT__regs s' = 0) /\
  ~ held_clock_never_runs_block.
Proof.
  split; [reflexivity |]. split; [reflexivity |]. split.
  - eexists. eexists. split; [apply eval_run |].
    split; [left; reflexivity | reflexivity].
  - intros H.
    apply (H held_clock_reset_edge _ _ eq_refl eq_refl eq_refl
             (eval_run held_clock_reset_edge)).
    left. reflexivity.
Qed.

Lemma In_nba_trace (rst r : Z) : In (Enter nba_sequent__TOP__0) (nba_trace rst r).
Proof. left. reflexivity. Qed.

(** C8, amended -- in every state without a pending trigger, the evaluation
    runs the sequential block exactly when at least one watched signal goes
    from 0 in the snapshot to 1 now.  A signal that holds 1 in both does not
    trigger by itself: when neither signal rises, nothing runs, and the
    register and the output keep their values; the block still runs when the
    other watched signal rises. *)
Theorem edge_only_triggering (s : Vregfile___024root) :
  __VnbaTriggered s = TriggerVec.clear 2 ->
  exists s' tr,
    Vregfile___024root___eval s = Done tt s' tr /\
    (In (Enter nba_sequent__TOP__0) tr <->
     (__Vtrigprevexpr___TOP__clock__0 s = 0 /\ clock s = 1) \/
     (__Vtrigprevexpr___TOP__reset__0 s = 0 /\ reset s = 1)) /\
    (~ ((__Vtrigprevexpr___TOP__clock__0 s = 0 /\ clock s = 1) \/
        (__Vtrigprevexpr___TOP__reset__0 s = 0 /\ reset s = 1)) ->
     tr = [] /\
     regfile__DOT__regs s' = regfile__DOT__regs s /\ val s' = val s).
Proof.
  intros Hnba.
  exists (eval_post s), (eval_trace s).
  split; [apply eval_run |].
  assert (Hf : fires s = true <->
               (__Vtrigprevexpr___TOP__clock__0 s = 0 /\ clock s = 1) \/
               (__Vtrigprevexpr___TOP__reset__0 s = 0 /\ reset s = 1)).
  { unfold fires, edges. rewrite Hnba. cbn.
    rewrite orb_false_r, orb_true_iff, !rising_iff. reflexivity. }
  split.
  - unfold eval_trace. destruct (fires s).
    + split; [intros _; apply Hf; reflexivity | intros _; apply In_nba_trace].
    + split; [intros [] | intros H; apply Hf in H; discriminate H].
  - intros Hno.
    assert (Hq : fires s = false).
    { destruct (fires s); [exfalso; apply Hno, Hf; reflexivity | reflexivity]. }
    unfold eval_trace. rewrite Hq. split; [reflexivity |].
    apply eval_post_quiet. exact Hq.
Qed.

Lemma edge_only_triggering_witness :
  exists s' tr,
    Vregfile___024root___eval held_signals_state = Done tt s' tr /\
    (In (Enter nba_sequent__TOP__0) tr <->
     (__Vtrigprevexpr___TOP__clock__0 held_signals_state = 0 /\
      clock held_signals_state = 1) \/
     (__Vtrigprevexpr___TOP__reset__0 held_signals_state = 0 /\
      reset held_signals_state = 1)) /\
    (~ ((__Vtrigprevexpr___TOP__clock__0 held_signals_state = 0 /\
         clock held_signals_state = 1) \/
        (__Vtrigprevexpr___TOP__reset__0 held_signals_state = 0 /\
         reset held_signals_state = 1)) ->
     tr = [] /\
     regfile__DOT__regs s' = regfile__DOT__regs held_signals_state /\
     val s' = val held_signals_state).
Proof.
  apply (edge_only_triggering held_signals_state). reflexivity.
Defined.

Lemma IData_succ (c : Z) : 0 <= c <= 100 -> IData (IData 1 + c) = c + 1.
Proof.
  intros H. change (IData 1) with 1. unfold IData.
  rewrite Z.mod_small; lia.
Qed.

Section Rigged.

Variable phase : M Vregfile___024root bool.
Hypothesis phase_rigged : rigged phase.

Lemma stl_loop_fatal (k : nat) :
  forall (fuel : nat) (s : Vregfile___024root),
    (k <= 101)%nat -> (k < fuel)%nat ->
    exists tr, stl_loop phase fuel (101 - Z.of_nat k) 1 s = Fatal diag_stl tr.
Proof.
  induction k as [| k IH]; intros fuel s Hk Hfuel;
    (destruct fuel as [| fuel]; [lia |]); rewrite stl_loop_eq;
    change (truthy 1) with true; cbv iota.
  - change (0x64 <? 101 - Z.of_nat 0) with true. cbv iota.
    exists []. reflexivity.
  - destruct (Z.ltb_spec 0x64 (101 - Z.of_nat (S k))) as [Hc | Hc]; [lia |].
    destruct (phase_rigged s) as [s1 [t1 [Hp _]]]. rewrite Hp.
    rewrite IData_succ by lia.
    replace (101 - Z.of_nat (S k) + 1) with (101 - Z.of_nat k) by lia.
    destruct (IH fuel (set___VstlFirstIteration 0 s1)) as [tr Htr]; [lia | lia |].
    rewrite Htr. exists (t1 ++ tr). reflexivity.
Qed.

Lemma act_loop_fatal (k : nat) :
  forall (fuel : nat) (s : Vregfile___024root),
    (k <= 101)%nat -> (k < fuel)%nat ->
    truthy (__VactContinue s) = true ->
    __VactIterCount s = 101 - Z.of_nat k ->
    exists tr, act_loop phase fuel s = Fatal diag_act tr.
Proof.
  induction k as [| k IH]; intros fuel s Hk Hfuel Hcont Hcount;
    (destruct fuel as [| fuel]; [lia |]); rewrite act_loop_eq, Hcont, Hcount.
  - change (0x64 <? 101 - Z.of_nat 0) with true. cbv iota.
    exists []. reflexivity.
  - destruct (Z.ltb_spec 0x64 (101 - Z.of_nat (S k))) as [Hc | Hc]; [lia |].
    rewrite IData_succ by lia.
    match goal with |- context [phase ?x] =>
      destruct (phase_rigged x) as [s1 [t1 [Hp Hn]]] end.
    rewrite Hp.
    destruct (IH fuel (set___VactContinue 1 s1)) as [tr Htr]; try lia.
    + destruct s1. reflexivity.
    + destruct s1, s.
      cbn [__VactIterCount set___VactContinue set___VactIterCount] in *. lia.
    + rewrite Htr. exists (t1 ++ tr). reflexivity.
Qed.

Lemma nba_loop_fatal (k : nat) :
  forall (fuel : nat) (s : Vregfile___024root),
    (k <= 101)%nat -> (k < fuel)%nat ->
    exists tr,
      nba_loop Vregfile___024root___eval_phase__act phase fuel
        (101 - Z.of_nat k) 1 s = Fatal diag_nba tr.
Proof.
  induction k as [| k IH]; intros fuel s Hk Hfuel;
    (destruct fuel as [| fuel]; [lia |]); rewrite nba_loop_eq;
    change (truthy 1) with true; cbv iota.
  - change (0x64 <? 101 - Z.of_nat 0) with true. cbv iota.
    exists []. reflexivity.
  - destruct (Z.ltb_spec 0x64 (101 - Z.of_nat (S k))) as [Hc | Hc]; [lia |].
    rewrite act_loop_run, prefix_trace_nil.
    destruct (phase_rigged (act_done s)) as [s1 [t1 [Hp _]]]. rewrite Hp.
    rewrite IData_succ by lia.
    replace (101 - Z.of_nat (S k) + 1) with (101 - Z.of_nat k) by lia.
    destruct (IH fuel s1) as [tr Htr]; [lia | lia |].
    rewrite Htr. exists (t1 ++ tr). reflexivity.
Qed.

End Rigged.

Lemma retrigger_rigged : rigged retrigger.
Proof.
  intros s. unfold retrigger, bind. rewrite stl_sequent_run.
  eexists. eexists. split; [reflexivity |]. destruct s. reflexivity.
Defined.

(** C4 fails on the iteration count: the settle loop run with [retrigger]
    aborts after 101 runs of the phase, and its diagnostic names the region
    but holds neither 101 nor the cap 100; the only number in it is the
    source line 16. *)
Lemma diagnostic_has_no_iteration_count :
  exists tr,
    eval_settle_with retrigger constructed_state = Fatal diag_stl tr /\
    entries tr = 101%nat /\
    names_region diag_stl "Settle" = true /\
    names_count diag_stl 101 = false /\
    names_count diag_stl 100 = false /\
    has_digit (d_msg diag_stl) = false /\
    d_line diag_stl = 16.
Proof.
  eexists. split; [vm_compute; reflexivity |].
  repeat split; vm_compute; reflexivity.
Qed.

(** C4, amended -- for each of the settle, active and NBA regions: when the
    region's phase reports activity every time, the evaluation ends in the
    fatal abort of that region, with the diagnostic [regfile.sv], line 16,
    ["<Region> region did not converge."].  The diagnostic names the region
    and holds no iteration count.  The abort is the outcome of the
    evaluation: nothing runs after it.  The cap is 100: a phase active 100
    times and then quiet converges, one active 101 times aborts. *)
Theorem nonconvergence_is_fatal (phase : M Vregfile___024root bool) :
  rigged phase ->
  (forall s, exists tr, eval_settle_with phase s = Fatal diag_stl tr) /\
  (forall phase__nba s, exists tr, eval_with phase phase__nba s = Fatal diag_act tr) /\
  (forall s, exists tr,
     eval_with Vregfile___024root___eval_phase__act phase s = Fatal diag_nba tr) /\
  (names_region diag_stl "Settle" = true /\ has_digit (d_msg diag_stl) = false) /\
  (names_region diag_act "Active" = true /\ has_digit (d_msg diag_act) = false) /\
  (names_region diag_nba "NBA" = true /\ has_digit (d_msg diag_nba) = false) /\
  (exists s' tr,
     eval_settle_with countdown (set_val 100 constructed_state) = Done tt s' tr) /\
  (exists tr,
     eval_settle_with countdown (set_val 101 constructed_state) = Fatal diag_stl tr) /\
  (exists s' tr,
     eval_with countdown Vregfile___024root___eval_phase__nba
       (set_val 100 constructed_state) = Done tt s' tr) /\
  (exists tr,
     eval_with countdown Vregfile___024root___eval_phase__nba
       (set_val 101 constructed_state) = Fatal diag_act tr) /\
  (exists s' tr,
     eval_with Vregfile___024root___eval_phase__act countdown
       (set_val 100 constructed_state) = Done tt s' tr) /\
  (exists tr,
     eval_with Vregfile___024root___eval_phase__act countdown
       (set_val 101 constructed_state) = Fatal diag_nba tr).
Proof.
  intros Hrig.
  split.
  { intros s. unfold eval_settle_with, converge_fuel.
    unfold bind, modify. rewrite prefix_trace_nil.
    apply (stl_loop_fatal phase Hrig 101); lia. }
  split.
  { intros phase__nba s. unfold eval_with, converge_fuel.
    rewrite nba_loop_eq. change (truthy 1) with true.
    change (0x64 <? 0) with false. cbv iota.
    destruct (act_loop_fatal phase Hrig 101 converge_fuel
                (set___VactContinue 1 (set___VactIterCount 0 s)))
      as [tr Htr]; try (unfold converge_fuel; lia).
    - destruct s. reflexivity.
    - destruct s. reflexivity.
    - rewrite Htr. exists tr. reflexivity. }
  split.
  { intros s. unfold eval_with, converge_fuel.
    apply (nba_loop_fatal phase Hrig 101); lia. }
  repeat split; try (vm_compute; reflexivity);
    eexists; try eexists; vm_compute; reflexivity.
Qed.

Lemma nonconvergence_is_fatal_witness :
  (exists tr, eval_settle_with retrigger constructed_state = Fatal diag_stl tr) /\
  (exists tr,
     eval_with retrigger Vregfile___024root___eval_phase__nba constructed_state =
     Fatal diag_act tr) /\
  (exists tr,
     eval_with Vregfile___024root___eval_phase__act retrigger constructed_state =
     Fatal diag_nba tr).
Proof.
  destruct (nonconvergence_is_fatal retrigger retrigger_rigged)
    as [Hstl [Hact [Hnba _]]].
  split; [apply Hstl |]. split; [apply Hact | apply Hnba].
Defined.

(** * Further properties *)

(** ** The scheduler *)

Lemma nba_entries_nba_trace (rst r : Z) : nba_entries (nba_trace rst r) = 1%nat.
Proof. unfold nba_trace. destruct (truthy rst); reflexivity. Qed.

Lemma fires_on_reset_edge (s : Vregfile___024root) :
  __Vtrigprevexpr___TOP__reset__0 s = 0 -> reset s = 1 -> fires s = true.
Proof.
  intros Hp Hr. unfold fires, edges.
  destruct (__VnbaTriggered s) as [n0 [n1 []]].
  assert (He : rising (reset s) (__Vtrigprevexpr___TOP__reset__0 s) = true)
    by (apply rising_iff; split; assumption).
  rewrite He. cbn. rewrite !orb_true_r. reflexivity.
Qed.

(** X1 -- Whatever the state at entry, [eval] returns; it leaves the clock
    and reset inputs as they were, the edge snapshots equal to the current
    inputs, both trigger vectors cleared and the active loop idle, it does
    not touch the settle bookkeeping, and it runs the sequential block at
    most once. *)
Theorem eval_leaves_scheduler_idle (s : Vregfile___024root) :
  exists s' tr,
    Vregfile___024root___eval s = Done tt s' tr /\
    clock s' = clock s /\ reset s' = reset s /\
    __Vtrigprevexpr___TOP__clock__0 s' = clock s /\
    __Vtrigprevexpr___TOP__reset__0 s' = reset s /\
    __VactTriggered s' = TriggerVec.clear 2 /\
    __VnbaTriggered s' = TriggerVec.clear 2 /\
    __VactContinue s' = 0 /\
    __VstlFirstIteration s' = __VstlFirstIteration s /\
    __VstlTriggered s' = __VstlTriggered s /\
    (nba_entries tr <= 1)%nat.
Proof.
  exists (eval_post s), (eval_trace s).
  split; [apply eval_run |].
  unfold eval_post, eval_trace.
  destruct (fires s); destruct s; cbn [nba_entries];
    rewrite ?nba_entries_nba_trace; repeat split; lia.
Qed.

(** X2 -- Asynchronous reset.  A 0-to-1 transition of reset, with reset now
    1, makes [eval] run the sequential block exactly once, whatever the
    clock does (held, falling, or rising in the same evaluation), and
    leaves the register and the output at 0. *)
Theorem reset_edge_clears_without_clock (s : Vregfile___024root) :
  __Vtrigprevexpr___TOP__reset__0 s = 0 ->
  reset s = 1 ->
  exists s' tr,
    Vregfile___024root___eval s = Done tt s' tr /\
    nba_entries tr = 1%nat /\
    regfile__DOT__regs s' = 0 /\
    val s' = 0.
Proof.
  intros Hp Hr.
  exists (eval_post s), (eval_trace s).
  split; [apply eval_run |].
  pose proof (fires_on_reset_edge s Hp Hr) as Hf.
  destruct (eval_post_fired s Hf) as [Hregs Hval].
  unfold eval_trace. rewrite Hf, nba_entries_nba_trace, Hregs, Hval.
  rewrite nba_next_reset by lia.
  repeat split.
Qed.

Lemma reset_edge_clears_without_clock_witness :
  exists s' tr,
    Vregfile___024root___eval reset_only_edge = Done tt s' tr /\
    nba_entries tr = 1%nat /\
    regfile__DOT__regs s' = 0 /\
    val s' = 0.
Proof.
  apply (reset_edge_clears_without_clock reset_only_edge); reflexivity.
Defined.

(** X3 -- The settle phase converges for every state: it runs the settle
    block exactly once, makes the output the composition of the register,
    ends with the first-iteration flag and the settle trigger cleared, and
    changes nothing else: not the register, the inputs, the snapshots nor
    the active and NBA triggers. *)
Theorem settle_runs_block_once (s : Vregfile___024root) :
  exists s' tr,
    Vregfile___024root___eval_settle s = Done tt s' tr /\
    entries tr = 1%nat /\
    writes_of tr = [] /\
    val s' = out_composition (regfile__DOT__regs s) /\
    __VstlFirstIteration s' = 0 /\
    __VstlTriggered s' = TriggerVec.clear 1 /\
    set_val (val s)
      (set___VstlFirstIteration (__VstlFirstIteration s)
         (set___VstlTriggered (__VstlTriggered s) s')) = s.
Proof.
  exists (settle_post s), (stl_trace (regfile__DOT__regs s)).
  split; [apply eval_settle_run |].
  destruct s. cbn. repeat split. apply stl_val_composition.
Qed.

Lemma fires_after_static (s : Vregfile___024root) :
  __VnbaTriggered s = TriggerVec.clear 2 ->
  fires (settle_post (static_post s)) = false.
Proof.
  intros Hn. destruct s. cbn in Hn. subst. unfold fires, edges.
  cbn [settle_post static_post set___Vtrigprevexpr___TOP__reset__0
       set___Vtrigprevexpr___TOP__clock__0 clock reset
       __Vtrigprevexpr___TOP__clock__0 __Vtrigprevexpr___TOP__reset__0
       __VnbaTriggered].
  rewrite !rising_same. reflexivity.
Qed.

Lemma first_step_eq (y : Vregfile__Syms) :
  __Vm_didInit y = false ->
  __VnbaTriggered (TOP y) = TriggerVec.clear 2 ->
  Vregfile__eval_step y =
  Done tt (mkSyms true (eval_base (settle_post (static_post (TOP y)))))
       (stl_trace (regfile__DOT__regs (TOP y))).
Proof.
  intros Hd Hn. rewrite eval_step_run.
  unfold step_post, step_trace, step_init, eval_post, eval_trace.
  rewrite Hd, (fires_after_static _ Hn), app_nil_r. reflexivity.
Qed.

(** X4 -- The first [eval_step] of a model never clocks it.  On a model not
    yet initialised and without a pending trigger, whatever the clock and
    reset values are, [eval_step] runs the settle block only: the log is
    that of the settle block, the sequential block is not entered, the
    register keeps its value, the output becomes the composition of the
    register, and the model is marked initialised. *)
Theorem first_eval_step_only_settles (y : Vregfile__Syms) :
  __Vm_didInit y = false ->
  __VnbaTriggered (TOP y) = TriggerVec.clear 2 ->
  exists y',
    Vregfile__eval_step y =
    Done tt y' (stl_trace (regfile__DOT__regs (TOP y))) /\
    nba_entries (stl_trace (regfile__DOT__regs (TOP y))) = 0%nat /\
    __Vm_didInit y' = true /\
    regfile__DOT__regs (TOP y') = regfile__DOT__regs (TOP y) /\
    val (TOP y') = out_composition (regfile__DOT__regs (TOP y)) /\
    clock (TOP y') = clock (TOP y) /\
    reset (TOP y') = reset (TOP y).
Proof.
  intros Hd Hn.
  exists (mkSyms true (eval_base (settle_post (static_post (TOP y))))).
  split; [apply first_step_eq; assumption |].
  split; [reflexivity |].
  destruct y as [d s]. destruct s. cbn. repeat split.
  apply stl_val_composition.
Qed.

Lemma first_eval_step_only_settles_witness :
  exists y',
    Vregfile__eval_step fresh_high_inputs =
    Done tt y' (stl_trace (regfile__DOT__regs (TOP fresh_high_inputs))) /\
    nba_entries (stl_trace (regfile__DOT__regs (TOP fresh_high_inputs))) = 0%nat /\
    __Vm_didInit y' = true /\
    regfile__DOT__regs (TOP y') = regfile__DOT__regs (TOP fresh_high_inputs) /\
    val (TOP y') = out_composition (regfile__DOT__regs (TOP fresh_high_inputs)) /\
    clock (TOP y') = clock (TOP fresh_high_inputs) /\
    reset (TOP y') = reset (TOP fresh_high_inputs).
Proof.
  apply (first_eval_step_only_settles fresh_high_inputs); reflexivity.
Defined.

(** ** The register as two 16-bit counters *)

(** X5 -- Without reset, the sequential block treats bits 15:0 and bits
    31:16 of the register as two separate 16-bit counters: for every
    register value, the new low 32 bits are [0x10000 * ((field + 1) mod
    0x10000) + (regs + 1) mod 0x10000].  The carry of the 32-bit increment
    out of bit 15 is overwritten by the field update, so the low 32 bits are
    not the old low 32 bits plus one unless the halves happen to agree with
    it. *)
Theorem halves_count_separately (s : Vregfile___024root) :
  reset s = 0 ->
  exists s' tr,
    Vregfile___024root___nba_sequent__TOP__0 s = Done tt s' tr /\
    low_field (regfile__DOT__regs s') =
    0x10000 * ((field16 (regfile__DOT__regs s) + 1) mod 0x10000) +
    (regfile__DOT__regs s + 1) mod 0x10000.
Proof.
  intros Hrst.
  exists (nba_post s), (nba_trace (reset s) (regfile__DOT__regs s)).
  split; [apply nba_sequent_run |].
  rewrite regs_nba_post, Hrst, low_field_split.
  rewrite field16_nba_next. change 0x10000 with (2 ^ 16) at 4.
  rewrite low16_nba_next. reflexivity.
Qed.

(** From a zeroed register the result is [0x00010001], not 1. *)
Lemma halves_count_separately_witness :
  exists s' tr,
    Vregfile___024root___nba_sequent__TOP__0 constructed_state = Done tt s' tr /\
    low_field (regfile__DOT__regs s') =
    0x10000 * ((field16 (regfile__DOT__regs constructed_state) + 1) mod 0x10000) +
    (regfile__DOT__regs constructed_state + 1) mod 0x10000.
Proof.
  apply (halves_count_separately constructed_state). reflexivity.
Defined.

Lemma nba_next_range (rst r : Z) : 0 <= nba_next rst r < 2 ^ 64.
Proof.
  assert (H : nba_next rst r = nba_next rst r mod 2 ^ 64).
  { unfold nba_next. destruct (truthy rst); [reflexivity |].
    change (nba_update_field (nba_update_low r r) r) with (nba_next 0 r).
    apply Z.bits_inj'. intros k Hk.
    rewrite Z.testbit_mod_pow2 by lia. rewrite nba_next_bits. split_cmp. }
  rewrite H. apply Z.mod_pos_bound. lia.
Qed.

Lemma out_composition_range (r : Z) : 0 <= out_composition r < 16.
Proof.
  assert (H : out_composition r = out_composition r mod 2 ^ 4).
  { apply Z.bits_inj'. intros k Hk.
    rewrite Z.testbit_mod_pow2 by lia. rewrite out_composition_bits. split_cmp. }
  rewrite H. change 16 with (2 ^ 4). apply Z.mod_pos_bound. lia.
Qed.

(** X6 -- Width masking.  Whatever integer the register member holds at
    entry, in or out of its 64-bit range, one run of the sequential block
    leaves a register within 64 bits and an output below 16. *)
Theorem nba_sequent_masks_to_width (s : Vregfile___024root) :
  exists s' tr,
    Vregfile___024root___nba_sequent__TOP__0 s = Done tt s' tr /\
    0 <= regfile__DOT__regs s' < 2 ^ 64 /\
    0 <= val s' < 16.
Proof.
  exists (nba_post s), (nba_trace (reset s) (regfile__DOT__regs s)).
  split; [apply nba_sequent_run |].
  rewrite regs_nba_post, val_nba_post. split.
  - apply nba_next_range.
  - change (nba_val ?a ?b) with (stl_val a b).
    rewrite stl_val_composition. apply out_composition_range.
Qed.

(** ** The output follows the register *)

Lemma val_eval_post (s : Vregfile___024root) :
  val s = out_composition (regfile__DOT__regs s) ->
  val (eval_post s) = out_composition (regfile__DOT__regs (eval_post s)).
Proof.
  intros H. destruct (fires s) eqn:Hf.
  - destruct (eval_post_fired s Hf) as [Hr Hv]. rewrite Hr, Hv.
    change (nba_val ?a ?b) with (stl_val a b). apply stl_val_composition.
  - destruct (eval_post_quiet s Hf) as [Hr Hv]. rewrite Hr, Hv. exact H.
Qed.

(** X7 -- In every reachable state of an initialised model, the output is
    the composition of the current register value, and is below 16: input
    changes and evaluations never leave the output stale. *)
Theorem output_follows_register (y : Vregfile__Syms) :
  reachable y ->
  __Vm_didInit y = true ->
  val (TOP y) = out_composition (regfile__DOT__regs (TOP y)) /\
  0 <= val (TOP y) < 16.
Proof.
  intros Hy Hd.
  assert (H : val (TOP y) = out_composition (regfile__DOT__regs (TOP y))).
  { induction Hy as [rnd h s0 s Hc | y c Hy IH | y r Hy IH | y y' tr Hy IH Hstep].
    - discriminate Hd.
    - destruct y as [d s]. destruct s. apply IH. exact Hd.
    - destruct y as [d s]. destruct s. apply IH. exact Hd.
    - rewrite eval_step_run in Hstep. injection Hstep as <- _.
      unfold step_post. cbn [TOP]. apply val_eval_post.
      unfold step_init. destruct (__Vm_didInit y) eqn:Hdy.
      + apply IH. reflexivity.
      + destruct (TOP y). cbn. apply stl_val_composition. }
  split; [exact H |]. rewrite H. apply out_composition_range.
Qed.

Lemma output_follows_register_witness :
  val (TOP twice_clocked) = out_composition (regfile__DOT__regs (TOP twice_clocked)) /\
  0 <= val (TOP twice_clocked) < 16.
Proof.
  apply (output_follows_register twice_clocked).
  - exact twice_clocked_reachable.
  - reflexivity.
Defined.

(** ** Clock cycles *)

Lemma rising_low (prev : Z) : rising 0 prev = false.
Proof. unfold rising. apply andb_false_r. Qed.

Lemma eval_post_no_edge (s : Vregfile___024root) :
  __VnbaTriggered s = TriggerVec.clear 2 ->
  clock s = 0 -> reset s = 0 ->
  eval_post s = eval_base s /\ eval_trace s = [].
Proof.
  intros Hn Hc Hr. unfold eval_post, eval_trace, fires, edges.
  rewrite Hn, Hc, Hr, !rising_low. split; reflexivity.
Qed.

Lemma eval_post_clock_edge (s : Vregfile___024root) :
  __Vtrigprevexpr___TOP__clock__0 s = 0 -> clock s = 1 ->
  eval_post s = nba_post (eval_base s) /\
  eval_trace s = nba_trace (reset s) (regfile__DOT__regs s).
Proof.
  intros Hp Hc. unfold eval_post, eval_trace.
  rewrite (fires_on_clock_edge s Hp Hc). split; reflexivity.
Qed.

Lemma clock_cycle_run (y : Vregfile__Syms) :
  __Vm_didInit y = true ->
  reset (TOP y) = 0 ->
  __VnbaTriggered (TOP y) = TriggerVec.clear 2 ->
  exists y',
    clock_cycle y = Done tt y' (nba_trace 0 (regfile__DOT__regs (TOP y))) /\
    __Vm_didInit y' = true /\
    reset (TOP y') = 0 /\
    __VnbaTriggered (TOP y') = TriggerVec.clear 2 /\
    regfile__DOT__regs (TOP y') = nba_next 0 (regfile__DOT__regs (TOP y)) /\
    val (TOP y') = out_composition (regfile__DOT__regs (TOP y')).
Proof.
  intros Hd Hr Hn.
  destruct y as [d s]. cbn [__Vm_didInit TOP] in *. subst d.
  pose (s1 := set_clock 0 s).
  pose (s2 := set_clock 1 (eval_base s1)).
  assert (H1 : eval_post s1 = eval_base s1 /\ eval_trace s1 = []).
  { apply eval_post_no_edge; destruct s; cbn in *; auto. }
  assert (H2 : eval_post s2 = nba_post (eval_base s2) /\
               eval_trace s2 = nba_trace (reset s2) (regfile__DOT__regs s2)).
  { apply eval_post_clock_edge; destruct s; reflexivity. }
  destruct H1 as [H1 H1t]. destruct H2 as [H2 H2t].
  exists (mkSyms true (nba_post (eval_base s2))).
  split.
  - unfold clock_cycle, drive_clock.
    unfold bind at 1, modify at 1. rewrite prefix_trace_nil.
    cbn [__Vm_didInit TOP]. unfold bind at 1. rewrite eval_step_run.
    unfold step_post, step_trace, step_init. cbn [__Vm_didInit TOP app].
    fold s1. rewrite H1, H1t. rewrite prefix_trace_nil.
    unfold bind at 1, modify at 1. rewrite prefix_trace_nil.
    cbn [__Vm_didInit TOP]. fold s2. rewrite eval_step_run.
    unfold step_post, step_trace, step_init. cbn [__Vm_didInit TOP app].
    rewrite H2, H2t. destruct s. cbn in Hr. subst. reflexivity.
  - cbn [__Vm_didInit TOP]. rewrite regs_nba_post, val_nba_post.
    destruct s. cbn in Hr. subst. cbn. repeat split.
    change (nba_val ?a ?b) with (stl_val a b). apply stl_val_composition.
Qed.

Lemma clock_cycles_run (n : nat) (y : Vregfile__Syms) :
  __Vm_didInit y = true ->
  reset (TOP y) = 0 ->
  __VnbaTriggered (TOP y) = TriggerVec.clear 2 ->
  exists y' tr,
    clock_cycles n y = Done tt y' tr /\
    nba_entries tr = n /\
    (__Vm_didInit y' = true /\ reset (TOP y') = 0 /\
     __VnbaTriggered (TOP y') = TriggerVec.clear 2) /\
    field16 (regfile__DOT__regs (TOP y')) =
    (field16 (regfile__DOT__regs (TOP y)) + Z.of_nat n) mod 0x10000 /\
    regfile__DOT__regs (TOP y') mod 0x10000 =
    (regfile__DOT__regs (TOP y) + Z.of_nat n) mod 0x10000 /\
    (forall k, 32 <= k < 64 ->
       Z.testbit (regfile__DOT__regs (TOP y')) k =
       Z.testbit (regfile__DOT__regs (TOP y)) k) /\
    (hi32_zero (regfile__DOT__regs (TOP y)) ->
     hi32_zero (regfile__DOT__regs (TOP y'))) /\
    ((1 <= n)%nat ->
     val (TOP y') = out_composition (regfile__DOT__regs (TOP y'))).
Proof.
  intros Hd Hr Hn. induction n as [| n IH].
  - exists y, []. split; [reflexivity |]. split; [reflexivity |].
    split; [auto |]. split.
    + rewrite Z.add_0_r, field16_mod. change 0x10000 with (2 ^ 16).
      rewrite Z.mod_mod by lia. reflexivity.
    + split; [rewrite Z.add_0_r; reflexivity |].
      split; [reflexivity |]. split; [auto | lia].
  - destruct IH as [y1 [t1 [Hrun [Hent [[Hd1 [Hr1 Hn1]] [Hf [Hl [Hhi [Hz _]]]]]]]]].
    destruct (clock_cycle_run y1 Hd1 Hr1 Hn1)
      as [y2 [Hc [Hd2 [Hr2 [Hn2 [Hregs Hval]]]]]].
    exists y2, (t1 ++ nba_trace 0 (regfile__DOT__regs (TOP y1))).
    split.
    { cbn [clock_cycles]. unfold bind. rewrite Hrun, Hc. reflexivity. }
    split.
    { assert (Happ : forall a b, nba_entries (a ++ b) =
                                 (nba_entries a + nba_entries b)%nat).
      { induction a as [| e a IHa]; intros b; [reflexivity |].
        destruct e as [[] | | |]; cbn; rewrite ?IHa; reflexivity. }
      rewrite Happ, Hent, nba_entries_nba_trace. lia. }
    split; [auto |]. rewrite Hregs. split.
    { rewrite field16_nba_next, Hf. change 0x10000 with (2 ^ 16).
      rewrite Zplus_mod_idemp_l. f_equal. lia. }
    split.
    { change 0x10000 with (2 ^ 16). rewrite low16_nba_next.
      change 0x10000 with (2 ^ 16) in Hl.
      rewrite <- Zplus_mod_idemp_l, Hl, Zplus_mod_idemp_l. f_equal. lia. }
    split.
    { intros k Hk. rewrite hi32_nba_next by lia. apply Hhi. exact Hk. }
    split.
    { intros H0. apply hi32_zero_nba_next. apply Hz. exact H0. }
    intros _. rewrite <- Hregs. exact Hval.
Qed.

(** X8 -- Counting over clock cycles.  On an initialised model with reset
    low, [n] clock cycles (clock driven low, evaluated, driven high,
    evaluated) run the sequential block exactly [n] times and advance both
    16-bit counters by [n] modulo [0x10000], from any register value; bits
    63:32 keep their values. *)
Theorem clock_cycles_count (n : nat) (y : Vregfile__Syms) :
  __Vm_didInit y = true ->
  reset (TOP y) = 0 ->
  __VnbaTriggered (TOP y) = TriggerVec.clear 2 ->
  exists y' tr,
    clock_cycles n y = Done tt y' tr /\
    nba_entries tr = n /\
    field16 (regfile__DOT__regs (TOP y')) =
    (field16 (regfile__DOT__regs (TOP y)) + Z.of_nat n) mod 0x10000 /\
    regfile__DOT__regs (TOP y') mod 0x10000 =
    (regfile__DOT__regs (TOP y) + Z.of_nat n) mod 0x10000 /\
    (forall k, 32 <= k < 64 ->
       Z.testbit (regfile__DOT__regs (TOP y')) k =
       Z.testbit (regfile__DOT__regs (TOP y)) k).
Proof.
  intros Hd Hr Hn.
  destruct (clock_cycles_run n y Hd Hr Hn)
    as [y' [tr [Hrun [Hent [_ [Hf [Hl [Hhi _]]]]]]]].
  exists y', tr. auto.
Qed.

Lemma clock_cycles_count_witness :
  exists y' tr,
    clock_cycles 3 near_wrap = Done tt y' tr /\
    nba_entries tr = 3%nat /\
    field16 (regfile__DOT__regs (TOP y')) =
    (field16 (regfile__DOT__regs (TOP near_wrap)) + Z.of_nat 3) mod 0x10000 /\
    regfile__DOT__regs (TOP y') mod 0x10000 =
    (regfile__DOT__regs (TOP near_wrap) + Z.of_nat 3) mod 0x10000 /\
    (forall k, 32 <= k < 64 ->
       Z.testbit (regfile__DOT__regs (TOP y')) k =
       Z.testbit (regfile__DOT__regs (TOP near_wrap)) k).
Proof.
  apply (clock_cycles_count 3 near_wrap); reflexivity.
Defined.

Lemma out_composition_of_halves (x m : Z) :
  x mod 0x10000 = m -> field16 x = m -> out_composition x = m mod 16.
Proof.
  intros Hl Hf. change 16 with (2 ^ 4). apply Z.bits_inj'. intros k Hk.
  rewrite out_composition_bits, Z.testbit_mod_pow2 by lia.
  destruct (Z.eqb_spec k 0) as [-> | Hk0].
  - rewrite <- Hl. change 0x10000 with (2 ^ 16).
    rewrite Z.testbit_mod_pow2 by lia. reflexivity.
  - destruct (Z.ltb_spec k 4) as [H4 | H4].
    + replace ((1 <=? k) && (k <=? 3)) with true by (symmetry; split_cmp).
      rewrite <- Hf, field16_mod, Z.testbit_mod_pow2, Z.shiftr_spec by lia.
      replace (k <? 16) with true by (symmetry; split_cmp).
      cbn [andb]. f_equal. lia.
    + replace ((1 <=? k) && (k <=? 3)) with false by (symmetry; split_cmp).
      reflexivity.
Qed.

(** X9 -- The design is a counter.  From a zeroed register, with reset low,
    after [n >= 1] clock cycles the register is [0x10001 * (n mod 0x10000)]
    and the output is [n mod 16]. *)
Theorem counter_after_n_cycles (n : nat) (y : Vregfile__Syms) :
  (1 <= n)%nat ->
  __Vm_didInit y = true ->
  reset (TOP y) = 0 ->
  __VnbaTriggered (TOP y) = TriggerVec.clear 2 ->
  regfile__DOT__regs (TOP y) = 0 ->
  exists y' tr,
    clock_cycles n y = Done tt y' tr /\
    regfile__DOT__regs (TOP y') = 0x10001 * (Z.of_nat n mod 0x10000) /\
    val (TOP y') = Z.of_nat n mod 16.
Proof.
  intros H1 Hd Hr Hn Hregs.
  destruct (clock_cycles_run n y Hd Hr Hn)
    as [y' [tr [Hrun [_ [_ [Hf [Hl [_ [Hz Hval]]]]]]]]].
  rewrite Hregs in Hf, Hl. change (field16 0) with 0 in Hf.
  rewrite Z.add_0_l in Hf, Hl.
  exists y', tr. split; [exact Hrun |].
  assert (Hlow : regfile__DOT__regs (TOP y') =
                 low_field (regfile__DOT__regs (TOP y'))).
  { assert (Hb : 0 <= regfile__DOT__regs (TOP y') < 2 ^ 32).
    { apply hi32_zero_bound, Hz. rewrite Hregs. intros k _. apply Z.bits_0. }
    unfold low_field, IData. rewrite Z.mod_small; [reflexivity | exact Hb]. }
  split.
  - rewrite Hlow, low_field_split, Hf, Hl. lia.
  - rewrite (Hval H1).
    rewrite (out_composition_of_halves _ _ Hl Hf).
    change 0x10000 with (2 ^ 4 * 2 ^ 12). change 16 with (2 ^ 4).
    rewrite Z.rem_mul_r by lia.
    rewrite Z.mul_comm, Z_mod_plus_full. apply Z.mod_mod. lia.
Qed.

Lemma counter_after_n_cycles_witness :
  exists y' tr,
    clock_cycles 21 (mkSyms true constructed_state) = Done tt y' tr /\
    regfile__DOT__regs (TOP y') = 0x10001 * (Z.of_nat 21 mod 0x10000) /\
    val (TOP y') = Z.of_nat 21 mod 16.
Proof.
  apply (counter_after_n_cycles 21 (mkSyms true constructed_state));
    try reflexivity. lia.
Defined.

(** ** The iteration cap bounds every run *)

Lemma ends_prefix_trace {St A} (t : list Event) (r : Result St A) :
  ends r -> ends (prefix_trace t r).
Proof. unfold ends. destruct r; cbn; intros H; congruence. Qed.

Section Bounded.

Variable phase : M Vregfile___024root bool.
Hypothesis phase_ends : forall s, ends (phase s).

Lemma stl_loop_ends (fuel : nat) :
  forall (count cont : Z) (s : Vregfile___024root),
    0 <= count <= 101 -> 102 <= Z.of_nat fuel + count ->
    ends (stl_loop phase fuel count cont s).
Proof.
  induction fuel as [| fuel IH]; intros count cont s Hc Hf; [lia |].
  rewrite stl_loop_eq.
  destruct (truthy cont); [| discriminate].
  destruct (Z.ltb_spec 0x64 count) as [Hcap | Hcap]; [discriminate |].
  pose proof (phase_ends s) as Hp.
  destruct (phase s) as [b s1 t1 | d t1 |];
    [| discriminate | exfalso; apply Hp; reflexivity].
  apply ends_prefix_trace. rewrite IData_succ by lia. apply IH; lia.
Qed.

Lemma nba_loop_ends (fuel : nat) :
  forall (count cont : Z) (s : Vregfile___024root),
    0 <= count <= 101 -> 102 <= Z.of_nat fuel + count ->
    ends (nba_loop Vregfile___024root___eval_phase__act phase fuel count cont s).
Proof.
  induction fuel as [| fuel IH]; intros count cont s Hc Hf; [lia |].
  rewrite nba_loop_eq.
  destruct (truthy cont); [| discriminate].
  destruct (Z.ltb_spec 0x64 count) as [Hcap | Hcap]; [discriminate |].
  rewrite act_loop_run, prefix_trace_nil.
  pose proof (phase_ends (act_done s)) as Hp.
  destruct (phase (act_done s)) as [b s1 t1 | d t1 |];
    [| discriminate | exfalso; apply Hp; reflexivity].
  apply ends_prefix_trace. rewrite IData_succ by lia. apply IH; lia.
Qed.

End Bounded.

(** X10 -- The cap bounds the loops for every logic.  Whatever the phase
    does, as long as each run of it ends, the settle loop and the NBA loop
    (around this design's active phase) end within the 102 iterations that
    the counter allows: by convergence or by the fatal abort, never by
    running on. *)
Theorem loops_end_within_cap (phase : M Vregfile___024root bool) :
  (forall s, ends (phase s)) ->
  forall s,
    ends (eval_settle_with phase s) /\
    ends (eval_with Vregfile___024root___eval_phase__act phase s).
Proof.
  intros Hp s. split.
  - unfold eval_settle_with, bind, modify. rewrite prefix_trace_nil.
    apply stl_loop_ends; [exact Hp | lia | unfold converge_fuel; lia].
  - unfold eval_with.
    apply nba_loop_ends; [exact Hp | lia | unfold converge_fuel; lia].
Qed.

Lemma countdown_ends (s : Vregfile___024root) : ends (countdown s).
Proof.
  unfold countdown, bind, get, modify, ret, ends.
  cbn [prefix_trace]. destruct (0 <? val s); cbn; discriminate.
Defined.

Lemma loops_end_within_cap_witness :
  ends (eval_settle_with countdown (set_val 500 constructed_state)) /\
  ends (eval_with Vregfile___024root___eval_phase__act countdown
          (set_val 500 constructed_state)).
Proof.
  apply (loops_end_within_cap countdown countdown_ends).
Defined.

(** ** Debug assertions *)

Lemma land_fe_zero (c : Z) : 0 <= c < 256 -> (Z.land c 0xfe = 0 <-> c < 2).
Proof.
  intros Hc. split.
  - intros H.
    assert (Hc1 : c = Z.land c 1).
    { rewrite <- (Z.lor_0_l (Z.land c 1)), <- H, <- Z.land_lor_distr_r.
      change (Z.lor 0xfe 1) with (Z.ones 8).
      rewrite Z.land_ones by lia. change (2 ^ 8) with 256.
      rewrite Z.mod_small; [reflexivity | exact Hc]. }
    change 1 with (Z.ones 1) in Hc1. rewrite Z.land_ones in Hc1 by lia.
    rewrite Hc1. apply Z.mod_pos_bound. lia.
  - intros H. assert (Hcase : c = 0 \/ c = 1) by lia.
    destruct Hcase as [-> | ->]; reflexivity.
Qed.

Lemma truthy_land_fe (c : Z) :
  0 <= c < 256 -> truthy (Z.land c 0xfe) = (2 <=? c).
Proof.
  intros Hc. pose proof (land_fe_zero c Hc) as H. unfold truthy.
  destruct (Z.eqb_spec (Z.land c 0xfe) 0), (Z.leb_spec 2 c);
    try reflexivity; exfalso; lia.
Qed.

Lemma eval_debug_assertions_run (s : Vregfile___024root) :
  Vregfile___024root___eval_debug_assertions s =
  if truthy (Z.land (clock s) 0xfe) then Fatal (mkDiag "" 0 "" "clock") []
  else if truthy (Z.land (reset s) 0xfe) then Fatal (mkDiag "" 0 "" "reset") []
  else Done tt s [].
Proof.
  unfold Vregfile___024root___eval_debug_assertions, bind, get.
  cbn [prefix_trace app].
  destruct (truthy (Z.land (clock s) 0xfe)); [reflexivity |].
  unfold ret at 1. cbn [prefix_trace app].
  destruct (truthy (Z.land (reset s) 0xfe)); reflexivity.
Qed.

Lemma eval_step_debug_run (y : Vregfile__Syms) :
  Vregfile__eval_step_debug y =
  if truthy (Z.land (clock (TOP y)) 0xfe) then Fatal (mkDiag "" 0 "" "clock") []
  else if truthy (Z.land (reset (TOP y)) 0xfe) then
    Fatal (mkDiag "" 0 "" "reset") []
  else Vregfile__eval_step y.
Proof.
  unfold Vregfile__eval_step_debug. unfold bind at 1, on_TOP at 1.
  rewrite eval_debug_assertions_run.
  destruct (truthy (Z.land (clock (TOP y)) 0xfe)); [reflexivity |].
  destruct (truthy (Z.land (reset (TOP y)) 0xfe)); [reflexivity |].
  destruct y. cbn [__Vm_didInit TOP]. apply prefix_trace_nil.
Qed.

(** X11 -- Debug width check.  For clock and reset values that fit their
    8-bit storage, the debug assertions pass, leaving the state untouched,
    exactly when both are 0 or 1; otherwise they abort naming the first
    over-wide input, clock before reset, and in a debug build [eval_step]
    aborts with them before any logic runs. *)
Theorem debug_assertions_check_width (y : Vregfile__Syms) :
  0 <= clock (TOP y) < 256 ->
  0 <= reset (TOP y) < 256 ->
  (Vregfile___024root___eval_debug_assertions (TOP y) = Done tt (TOP y) [] <->
   clock (TOP y) < 2 /\ reset (TOP y) < 2) /\
  (2 <= clock (TOP y) ->
   Vregfile___024root___eval_debug_assertions (TOP y) =
   Fatal (mkDiag "" 0 "" "clock") [] /\
   Vregfile__eval_step_debug y = Fatal (mkDiag "" 0 "" "clock") []) /\
  (clock (TOP y) < 2 -> 2 <= reset (TOP y) ->
   Vregfile___024root___eval_debug_assertions (TOP y) =
   Fatal (mkDiag "" 0 "" "reset") [] /\
   Vregfile__eval_step_debug y = Fatal (mkDiag "" 0 "" "reset") []) /\
  (clock (TOP y) < 2 -> reset (TOP y) < 2 ->
   Vregfile__eval_step_debug y = Vregfile__eval_step y).
Proof.
  intros Hc Hr.
  rewrite eval_debug_assertions_run, eval_step_debug_run.
  rewrite (truthy_land_fe _ Hc), (truthy_land_fe _ Hr).
  destruct (Z.leb_spec 2 (clock (TOP y))) as [Hc2 | Hc2];
    destruct (Z.leb_spec 2 (reset (TOP y))) as [Hr2 | Hr2].
  - split; [split; [discriminate | lia] |].
    split; [split; reflexivity |]. split; intros; lia.
  - split; [split; [discriminate | lia] |].
    split; [split; reflexivity |]. split; intros; lia.
  - split; [split; [discriminate | lia] |].
    split; [intros; lia |]. split; [split; reflexivity | intros; lia].
  - split; [split; [split; assumption | reflexivity] |].
    split; [intros; lia |]. split; [intros; lia | reflexivity].
Qed.

Lemma debug_assertions_check_width_witness :
  Vregfile___024root___eval_debug_assertions (TOP overwide_clock) =
  Fatal (mkDiag "" 0 "" "clock") [] /\
  Vregfile__eval_step_debug overwide_clock = Fatal (mkDiag "" 0 "" "clock") [].
Proof.
  destruct (debug_assertions_check_width overwide_clock) as [_ [H _]].
  - cbn. lia.
  - cbn. lia.
  - apply H. cbn. lia.
Defined.

(** ** Construction *)

Lemma ctor_var_reset_run (rnd : Z -> Z -> Z) (h : Z) (s0 : Vregfile___024root) :
  Vregfile___024root___ctor_var_reset rnd h s0 =
  Done tt
    (mkRoot (VL_SCOPED_RAND_RESET_I rnd 1 h 5452235342940299466)
       (VL_SCOPED_RAND_RESET_I rnd 1 h 9928399931838511862)
       (__VstlFirstIteration s0)
       (VL_SCOPED_RAND_RESET_I rnd 1 h 13272892335938733197)
       (VL_SCOPED_RAND_RESET_I rnd 1 h 1487628987237401141)
       (__VactContinue s0)
       (VL_SCOPED_RAND_RESET_I rnd 32 h 14157650751545541461)
       (__VactIterCount s0) 0
       (__VstlTriggered s0) (__VactTriggered s0) (__VnbaTriggered s0))
    [].
Proof. destruct s0. reflexivity. Qed.

Lemma rand_reset_range (rnd : Z -> Z -> Z) (w h salt : Z) :
  0 <= w -> 0 <= VL_SCOPED_RAND_RESET_I rnd w h salt < 2 ^ w.
Proof.
  intros Hw. unfold VL_SCOPED_RAND_RESET_I. apply Z.mod_pos_bound.
  apply Z.pow_pos_nonneg; lia.
Qed.

(** X12 -- A constructed model is well formed.  Whatever values the reset
    policy supplies and whatever the storage held, after [ctor_var_reset]
    the register is 0, clock, reset and both edge snapshots are 0 or 1, the
    output fits 32 bits, the debug width assertions pass, and the members
    the function does not assign are as the storage had them. *)
Theorem constructed_model_is_well_formed
    (rnd : Z -> Z -> Z) (h : Z) (s0 s : Vregfile___024root) (tr : list Event) :
  Vregfile___024root___ctor_var_reset rnd h s0 = Done tt s tr ->
  regfile__DOT__regs s = 0 /\
  0 <= clock s < 2 /\ 0 <= reset s < 2 /\
  0 <= __Vtrigprevexpr___TOP__clock__0 s < 2 /\
  0 <= __Vtrigprevexpr___TOP__reset__0 s < 2 /\
  0 <= val s < 2 ^ 32 /\
  Vregfile___024root___eval_debug_assertions s = Done tt s [] /\
  (__VstlFirstIteration s = __VstlFirstIteration s0 /\
   __VactContinue s = __VactContinue s0 /\
   __VactIterCount s = __VactIterCount s0 /\
   __VstlTriggered s = __VstlTriggered s0 /\
   __VactTriggered s = __VactTriggered s0 /\
   __VnbaTriggered s = __VnbaTriggered s0).
Proof.
  rewrite ctor_var_reset_run. intros H. injection H as <- _.
  cbn [clock reset val regfile__DOT__regs __Vtrigprevexpr___TOP__clock__0
       __Vtrigprevexpr___TOP__reset__0 __VstlFirstIteration __VactContinue
       __VactIterCount __VstlTriggered __VactTriggered __VnbaTriggered].
  pose proof (rand_reset_range rnd 1 h 5452235342940299466 ltac:(lia)) as Hc.
  pose proof (rand_reset_range rnd 1 h 9928399931838511862 ltac:(lia)) as Hr.
  pose proof (rand_reset_range rnd 1 h 13272892335938733197 ltac:(lia)) as Hpc.
  pose proof (rand_reset_range rnd 1 h 1487628987237401141 ltac:(lia)) as Hpr.
  pose proof (rand_reset_range rnd 32 h 14157650751545541461 ltac:(lia)) as Hv.
  change (2 ^ 1) with 2 in *.
  repeat (split; [first [reflexivity | assumption] |]).
  split; [| repeat split].
  rewrite eval_debug_assertions_run.
  cbn [clock reset].
  rewrite !truthy_land_fe by lia.
  destruct (Z.leb_spec 2 (VL_SCOPED_RAND_RESET_I rnd 1 h 5452235342940299466));
    [lia |].
  destruct (Z.leb_spec 2 (VL_SCOPED_RAND_RESET_I rnd 1 h 9928399931838511862));
    [lia | reflexivity].
Qed.

Lemma constructed_model_is_well_formed_witness :
  regfile__DOT__regs constructed_all_ones = 0 /\
  0 <= clock constructed_all_ones < 2 /\ 0 <= reset constructed_all_ones < 2 /\
  0 <= __Vtrigprevexpr___TOP__clock__0 constructed_all_ones < 2 /\
  0 <= __Vtrigprevexpr___TOP__reset__0 constructed_all_ones < 2 /\
  0 <= val constructed_all_ones < 2 ^ 32 /\
  Vregfile___024root___eval_debug_assertions constructed_all_ones =
  Done tt constructed_all_ones [] /\
  (__VstlFirstIteration constructed_all_ones = __VstlFirstIteration dirty_storage /\
   __VactContinue constructed_all_ones = __VactContinue dirty_storage /\
   __VactIterCount constructed_all_ones = __VactIterCount dirty_storage /\
   __VstlTriggered constructed_all_ones = __VstlTriggered dirty_storage /\
   __VactTriggered constructed_all_ones = __VactTriggered dirty_storage /\
   __VnbaTriggered constructed_all_ones = __VnbaTriggered dirty_storage).
Proof.
  apply (constructed_model_is_well_formed all_ones 0 dirty_storage
           constructed_all_ones []).
  vm_compute. reflexivity.
Defined.

(** ** The generated [main] *)

(** X13 -- The generated [main] never clocks the design.  With [$finish]
    not seen, its loop evaluates the model once and leaves, because
    [eventsPending] is always false; however many iterations it is allowed.
    On a fresh model without a pending trigger that one evaluation is the
    settle pass: the sequential block is not entered, the register keeps
    its value and the output becomes the composition of the register.  With
    [$finish] already seen the model is not evaluated at all. *)
Theorem main_settles_and_stops (fuel : nat) (y : Vregfile__Syms) :
  __Vm_didInit y = false ->
  __VnbaTriggered (TOP y) = TriggerVec.clear 2 ->
  (exists y',
     main_run (S fuel) false y =
     Done tt y' (stl_trace (regfile__DOT__regs (TOP y))) /\
     Vregfile__eval_step y =
     Done tt y' (stl_trace (regfile__DOT__regs (TOP y))) /\
     nba_entries (stl_trace (regfile__DOT__regs (TOP y))) = 0%nat /\
     regfile__DOT__regs (TOP y') = regfile__DOT__regs (TOP y) /\
     val (TOP y') = out_composition (regfile__DOT__regs (TOP y))) /\
  main_run fuel true y = Done tt y [].
Proof.
  intros Hd Hn.
  pose proof (first_step_eq y Hd Hn) as Hstep.
  set (y' := mkSyms true (eval_base (settle_post (static_post (TOP y))))) in *.
  assert (Hregs : regfile__DOT__regs (TOP y') = regfile__DOT__regs (TOP y))
    by (destruct y as [d s]; destruct s; reflexivity).
  assert (Hval : val (TOP y') = out_composition (regfile__DOT__regs (TOP y))).
  { destruct y as [d s]. destruct s. cbn. apply stl_val_composition. }
  split.
  - exists y'. split; [| repeat split; assumption].
    unfold main_run. cbn [main_loop negb].
    unfold bind at 1. unfold bind at 1. rewrite Hstep.
    unfold Vregfile__eventsPending, Vregfile__final,
      Vregfile___024root___eval_final, bind, ret, on_TOP.
    cbn [negb prefix_trace app]. destruct y'. cbn [__Vm_didInit TOP].
    rewrite !app_nil_r. reflexivity.
  - unfold main_run. destruct fuel; cbn [main_loop negb];
      unfold Vregfile__final, Vregfile___024root___eval_final, bind, ret, on_TOP;
      destruct y; reflexivity.
Qed.

Lemma main_settles_and_stops_witness :
  (exists y',
     main_run 4 false fresh_high_inputs =
     Done tt y' (stl_trace (regfile__DOT__regs (TOP fresh_high_inputs))) /\
     Vregfile__eval_step fresh_high_inputs =
     Done tt y' (stl_trace (regfile__DOT__regs (TOP fresh_high_inputs))) /\
     nba_entries (stl_trace (regfile__DOT__regs (TOP fresh_high_inputs))) = 0%nat /\
     regfile__DOT__regs (TOP y') = regfile__DOT__regs (TOP fresh_high_inputs) /\
     val (TOP y') = out_composition (regfile__DOT__regs (TOP fresh_high_inputs))) /\
  main_run 3 true fresh_high_inputs = Done tt fresh_high_inputs [].
Proof.
  apply (main_settles_and_stops 3 fresh_high_inputs); reflexivity.
Defined.

(** ** Trigger dumps *)

(** X14 -- Each trigger dump prints the line "No triggers active" exactly
    when no flag of its vector is set, and otherwise one line per set flag,
    in index order and nothing else: it never prints nothing and never
    prints both kinds of line. *)
Theorem dump_triggers_lines (s : Vregfile___024root) :
  Vregfile___024root___dump_triggers__stl s =
  match set_flags 0 (__VstlTriggered s) with
  | [] => [no_triggers_line]
  | fl => map stl_line fl
  end /\
  Vregfile___024root___dump_triggers__act s =
  match set_flags 0 (__VactTriggered s) with
  | [] => [no_triggers_line]
  | fl => map act_line fl
  end /\
  Vregfile___024root___dump_triggers__nba s =
  match set_flags 0 (__VnbaTriggered s) with
  | [] => [no_triggers_line]
  | fl => map nba_line fl
  end.
Proof.
  destruct s as [clk rst fi pc pr ac v ic rg [s0 []] [a0 [a1 []]] [n0 [n1 []]]].
  split; [| split].
  - destruct s0; reflexivity.
  - destruct a0, a1; reflexivity.
  - destruct n0, n1; reflexivity.
Qed.

(** ** Pending triggers *)

(** X15 -- A trigger left pending in [__VnbaTriggered] is served by the
    next [eval]: with any flag of the vector set at entry, the sequential
    block runs exactly once even though no watched signal rises, and the
    vector is cleared. *)
Theorem pending_trigger_is_served (s : Vregfile___024root) :
  TriggerVec.any (__VnbaTriggered s) = true ->
  exists s' tr,
    Vregfile___024root___eval s = Done tt s' tr /\
    nba_entries tr = 1%nat /\
    regfile__DOT__regs s' = nba_next (reset s) (regfile__DOT__regs s) /\
    __VnbaTriggered s' = TriggerVec.clear 2.
Proof.
  intros Hany.
  assert (Hf : fires s = true).
  { unfold fires, edges. destruct (__VnbaTriggered s) as [n0 [n1 []]].
    cbn in Hany |- *.
    destruct n0, n1; try discriminate Hany; cbn; rewrite ?orb_true_r; reflexivity. }
  exists (eval_post s), (eval_trace s).
  split; [apply eval_run |].
  destruct (eval_post_fired s Hf) as [Hregs _].
  unfold eval_trace. rewrite Hf, nba_entries_nba_trace.
  split; [reflexivity |]. split; [exact Hregs |].
  unfold eval_post. rewrite Hf. destruct s. reflexivity.
Qed.

Lemma pending_trigger_is_served_witness :
  exists s' tr,
    Vregfile___024root___eval pending_flag_state = Done tt s' tr /\
    nba_entries tr = 1%nat /\
    regfile__DOT__regs s' =
    nba_next (reset pending_flag_state) (regfile__DOT__regs pending_flag_state) /\
    __VnbaTriggered s' = TriggerVec.clear 2.
Proof.
  apply (pending_trigger_is_served pending_flag_state). reflexivity.
Defined.
